(** * Snowgander: the Anthropic vendor adapter

    A shallow embedding of [src/vendors/anthropic.ts] (class
    [AnthropicAdapter]) and the properties of its content mapping, request
    construction, usage accounting and error behaviour.

    Conventions of the embedding:
    - a JavaScript [number] holding a token count is an integer of [Z]; a
      cost is an IEEE 754 double, a [float], with the operations and the
      rounding of doubles;
    - a JavaScript string is a [string] (a sequence of bytes);
    - an optional or nullable field is an [option]; [None] stands for both
      [undefined] and [null], which the adapter never tells apart;
    - a thrown exception is the [Throw] branch of [Result];
    - the one side effect of the adapter, the call of the vendor's client,
      appends the request to a log that is threaded through the [M] monad. *)

From Stdlib Require Import Floats.
From Stdlib Require Import String Ascii List ZArith Bool Lia.
From Stdlib Require Import DecimalString.
From Stdlib Require DecimalFacts DecimalPos DecimalN.
Import ListNotations.
Local Open Scope string_scope.
Local Open Scope Z_scope.

(** ** JavaScript values that travel as JSON *)

Module Js.

Set Warnings "-register-all".

(** A JSON value. A number [JNum m e] is the exact decimal [m * 10^e]. An
    object is the list of its own properties in insertion order. *)
Inductive json : Type :=
| JNull
| JBool (b : bool)
| JNum (m e : Z)
| JStr (s : string)
| JArr (xs : list json)
| JObj (kvs : list (string * json)).

Definition quote : ascii := ascii_of_nat 34.
Definition backslash : ascii := ascii_of_nat 92.

Definition char (c : ascii) : string := String c EmptyString.

Definition hex_digit (n : nat) : ascii :=
  nth n (list_ascii_of_string "0123456789abcdef") "0"%char.

(** One character of a string literal as [JSON.stringify] writes it. *)
Definition escape_char (c : ascii) : string :=
  let n := nat_of_ascii c in
  if Nat.eqb n 34 then String backslash (char quote)
  else if Nat.eqb n 92 then String backslash (char backslash)
  else if Nat.eqb n 8 then String backslash "b"
  else if Nat.eqb n 12 then String backslash "f"
  else if Nat.eqb n 10 then String backslash "n"
  else if Nat.eqb n 13 then String backslash "r"
  else if Nat.eqb n 9 then String backslash "t"
  else if Nat.ltb n 32 then
    String backslash
      ("u00" ++ char (hex_digit (Nat.div n 16)) ++ char (hex_digit (Nat.modulo n 16)))
  else char c.

Fixpoint escape (s : string) : string :=
  match s with
  | EmptyString => EmptyString
  | String c r => escape_char c ++ escape r
  end.

Definition QuoteJSONString (s : string) : string :=
  String quote (escape s ++ char quote).

Definition digits (n : Z) : string :=
  NilZero.string_of_uint (N.to_uint (Z.to_N n)).

Definition is_zero_char (c : ascii) : bool := Ascii.eqb c "0".

Fixpoint drop_zeros (l : list ascii) : list ascii :=
  match l with
  | c :: r => if is_zero_char c then drop_zeros r else l
  | [] => []
  end.

Definition zeros (n : Z) : string :=
  string_of_list_ascii (repeat "0"%char (Z.to_nat n)).

(** [Number::toString] of ECMAScript on the decimal [m * 10^e]: plain digits
    up to 21 integer digits, a leading [0.] down to 10^-6, the exponent
    form elsewhere. *)
Definition Number_toString (m e : Z) : string :=
  if m =? 0 then "0"
  else
    let sign := if m <? 0 then "-" else "" in
    let raw := list_ascii_of_string (digits (Z.abs m)) in
    let sig := rev (drop_zeros (rev raw)) in
    let k := Z.of_nat (length sig) in
    let n := Z.of_nat (length raw) + e in
    let body :=
      if (k <=? n) && (n <=? 21) then
        string_of_list_ascii sig ++ zeros (n - k)
      else if (0 <? n) && (n <=? 21) then
        string_of_list_ascii (firstn (Z.to_nat n) sig) ++ "."
          ++ string_of_list_ascii (skipn (Z.to_nat n) sig)
      else if (-6 <? n) && (n <=? 0) then
        "0." ++ zeros (- n) ++ string_of_list_ascii sig
      else
        let ex := n - 1 in
        let es := (if ex <? 0 then "-" else "+") ++ digits (Z.abs ex) in
        match sig with
        | [] => "0"
        | [d] => char d ++ "e" ++ es
        | d :: rest => char d ++ "." ++ string_of_list_ascii rest ++ "e" ++ es
        end
    in sign ++ body.

(** [JSON.stringify] without indentation. *)
Fixpoint JSON_stringify (j : json) : string :=
  match j with
  | JNull => "null"
  | JBool true => "true"
  | JBool false => "false"
  | JNum m e => Number_toString m e
  | JStr s => QuoteJSONString s
  | JArr xs => "[" ++ String.concat "," (map JSON_stringify xs) ++ "]"
  | JObj kvs =>
      "{" ++ String.concat ","
               (map (fun kv : string * json =>
                       let (k, v) := kv in
                       QuoteJSONString k ++ ":" ++ JSON_stringify v) kvs)
          ++ "}"
  end.

(** *** Exceptions *)

Inductive JsError : Type :=
| Error (message : string)
| TypeError (message : string)
| SyntaxError (message : string).

Definition message_of (e : JsError) : string :=
  match e with
  | Error m | TypeError m | SyntaxError m => m
  end.

(** The outcome of an expression that may throw. *)
Inductive Result (A : Type) : Type :=
| Ok (a : A)
| Throw (e : JsError).
Arguments Ok {A} a.
Arguments Throw {A} e.

(** *** [JSON.parse]

    A recursive-descent reader of the JSON grammar (ECMA-404), which is what
    the built-in accepts: the four white-space characters, the three
    literals, numbers without leading zeros, strings with the nine escapes
    and no raw control character, arrays and objects. *)

Definition is_ws (c : ascii) : bool :=
  let n := nat_of_ascii c in
  Nat.eqb n 32 || Nat.eqb n 9 || Nat.eqb n 10 || Nat.eqb n 13.

Fixpoint skip_ws (s : string) : string :=
  match s with
  | String c r => if is_ws c then skip_ws r else s
  | EmptyString => s
  end.

Definition digit_val (c : ascii) : option Z :=
  let n := nat_of_ascii c in
  if Nat.leb 48 n && Nat.leb n 57 then Some (Z.of_nat (n - 48)) else None.

Definition hex_val (c : ascii) : option nat :=
  let n := nat_of_ascii c in
  if Nat.leb 48 n && Nat.leb n 57 then Some (n - 48)%nat
  else if Nat.leb 97 n && Nat.leb n 102 then Some (n - 87)%nat
  else if Nat.leb 65 n && Nat.leb n 70 then Some (n - 55)%nat
  else None.

(** The longest run of decimal digits at the head of [s]: the value
    accumulated on top of [acc], the number of digits read on top of [cnt],
    and what follows. *)
Fixpoint read_digits (s : string) (acc cnt : Z) : Z * Z * string :=
  match s with
  | String c r =>
      match digit_val c with
      | Some d => read_digits r (10 * acc + d) (cnt + 1)
      | None => (acc, cnt, s)
      end
  | EmptyString => (acc, cnt, s)
  end.

Definition read_sign (s : string) : bool * string :=
  match s with
  | String c r =>
      if Ascii.eqb c "-" then (true, r)
      else if Ascii.eqb c "+" then (false, r)
      else (false, s)
  | EmptyString => (false, s)
  end.

Definition read_exponent (s : string) (mant fc : Z) : option (json * string) :=
  match s with
  | String c r =>
      if Ascii.eqb c "e" || Ascii.eqb c "E" then
        let (eneg, r1) := read_sign r in
        let '(ev, ec, r2) := read_digits r1 0 0 in
        if ec =? 0 then None
        else Some (JNum mant ((if eneg then - ev else ev) - fc), r2)
      else Some (JNum mant (- fc), s)
  | EmptyString => Some (JNum mant (- fc), s)
  end.

Definition read_fraction (s : string) (ip : Z) : option (Z * Z * string) :=
  match s with
  | String c r =>
      if Ascii.eqb c "." then
        let '(fp, fc, r1) := read_digits r ip 0 in
        if fc =? 0 then None else Some (fp, fc, r1)
      else Some (ip, 0, s)
  | EmptyString => Some (ip, 0, s)
  end.

Definition parse_number (s : string) : option (json * string) :=
  let (neg, s1) :=
    match s with
    | String c r => if Ascii.eqb c "-" then (true, r) else (false, s)
    | EmptyString => (false, s)
    end in
  match s1 with
  | String c r =>
      match digit_val c with
      | None => None
      | Some d =>
          let '(ip, _, s2) := if d =? 0 then (0, 1, r) else read_digits s1 0 0 in
          match read_fraction s2 ip with
          | None => None
          | Some (mant, fc, s3) =>
              read_exponent s3 (if neg then - mant else mant) fc
          end
      end
  | EmptyString => None
  end.

(** The bytes (UTF-8) of the code unit written [\uXXXX]; each half of a
    surrogate pair is written as a code unit of its own. *)
Definition code_unit (n : nat) : list ascii :=
  if Nat.ltb n 128 then [ascii_of_nat n]
  else if Nat.ltb n 2048 then
    [ascii_of_nat (192 + Nat.div n 64); ascii_of_nat (128 + Nat.modulo n 64)]
  else
    [ascii_of_nat (224 + Nat.div n 4096);
     ascii_of_nat (128 + Nat.modulo (Nat.div n 64) 64);
     ascii_of_nat (128 + Nat.modulo n 64)].

Definition hex4 (a b c d : ascii) : option nat :=
  match hex_val a, hex_val b, hex_val c, hex_val d with
  | Some x, Some y, Some z, Some w => Some (((x * 16 + y) * 16 + z) * 16 + w)%nat
  | _, _, _, _ => None
  end.

Definition simple_escape (e : ascii) : option ascii :=
  let n := nat_of_ascii e in
  if Nat.eqb n 34 || Nat.eqb n 92 || Nat.eqb n 47 then Some e
  else if Ascii.eqb e "b" then Some (ascii_of_nat 8)
  else if Ascii.eqb e "f" then Some (ascii_of_nat 12)
  else if Ascii.eqb e "n" then Some (ascii_of_nat 10)
  else if Ascii.eqb e "r" then Some (ascii_of_nat 13)
  else if Ascii.eqb e "t" then Some (ascii_of_nat 9)
  else None.

(** The characters of a string literal after its opening quote, up to and
    including the closing one; [acc] holds the characters read, last first. *)
Fixpoint parse_chars (s : string) (acc : list ascii) : option (string * string) :=
  match s with
  | EmptyString => None
  | String c r =>
      if Ascii.eqb c quote then Some (string_of_list_ascii (rev acc), r)
      else if Ascii.eqb c backslash then
        match r with
        | EmptyString => None
        | String e r1 =>
            if Ascii.eqb e "u" then
              match r1 with
              | String h1 (String h2 (String h3 (String h4 r2))) =>
                  match hex4 h1 h2 h3 h4 with
                  | Some n => parse_chars r2 (rev (code_unit n) ++ acc)
                  | None => None
                  end
              | _ => None
              end
            else
              match simple_escape e with
              | Some x => parse_chars r1 (x :: acc)
              | None => None
              end
        end
      else if Nat.ltb (nat_of_ascii c) 32 then None
      else parse_chars r (c :: acc)
  end.

Fixpoint strip_prefix (p s : string) : option string :=
  match p, s with
  | EmptyString, _ => Some s
  | String a p', String b s' => if Ascii.eqb a b then strip_prefix p' s' else None
  | String _ _, EmptyString => None
  end.

Definition literal (p : string) (v : json) (s : string) : option (json * string) :=
  match strip_prefix p s with
  | Some r => Some (v, r)
  | None => None
  end.

(** Defining a property: a key that is already there keeps its place and
    takes the new value, a new key goes last. *)
Fixpoint set_prop (kvs : list (string * json)) (k : string) (v : json)
  : list (string * json) :=
  match kvs with
  | [] => [(k, v)]
  | (k', v') :: r =>
      if String.eqb k' k then (k', v) :: r else (k', v') :: set_prop r k v
  end.

Definition starts_with (c : ascii) (s : string) : option string :=
  match s with
  | String d r => if Ascii.eqb c d then Some r else None
  | EmptyString => None
  end.

Fixpoint parse_value (fuel : nat) (s : string) : option (json * string) :=
  match fuel with
  | O => None
  | S f =>
      match skip_ws s with
      | EmptyString => None
      | String c r =>
          if Ascii.eqb c "{" then
            match starts_with "}" (skip_ws r) with
            | Some r' => Some (JObj [], r')
            | None => parse_members f r []
            end
          else if Ascii.eqb c "[" then
            match starts_with "]" (skip_ws r) with
            | Some r' => Some (JArr [], r')
            | None => parse_elements f r []
            end
          else if Ascii.eqb c quote then
            match parse_chars r [] with
            | Some (str, r') => Some (JStr str, r')
            | None => None
            end
          else if Ascii.eqb c "t" then literal "rue" (JBool true) r
          else if Ascii.eqb c "f" then literal "alse" (JBool false) r
          else if Ascii.eqb c "n" then literal "ull" JNull r
          else parse_number (String c r)
      end
  end

with parse_elements (fuel : nat) (s : string) (acc : list json)
  : option (json * string) :=
  match fuel with
  | O => None
  | S f =>
      match parse_value f s with
      | None => None
      | Some (v, r) =>
          match skip_ws r with
          | EmptyString => None
          | String c r' =>
              if Ascii.eqb c "," then parse_elements f r' (v :: acc)
              else if Ascii.eqb c "]" then Some (JArr (rev (v :: acc)), r')
              else None
          end
      end
  end

with parse_members (fuel : nat) (s : string) (acc : list (string * json))
  : option (json * string) :=
  match fuel with
  | O => None
  | S f =>
      match starts_with quote (skip_ws s) with
      | None => None
      | Some r =>
          match parse_chars r [] with
          | None => None
          | Some (k, r1) =>
              match starts_with ":" (skip_ws r1) with
              | None => None
              | Some r2 =>
                  match parse_value f r2 with
                  | None => None
                  | Some (v, r3) =>
                      match skip_ws r3 with
                      | EmptyString => None
                      | String c r4 =>
                          if Ascii.eqb c "," then parse_members f r4 (set_prop acc k v)
                          else if Ascii.eqb c "}" then Some (JObj (set_prop acc k v), r4)
                          else None
                      end
                  end
              end
          end
      end
  end.

(** [JSON.parse]: one value between optional white space, or a
    [SyntaxError]. The reader consumes a character between a call and the
    second next one, so twice the length of the text is fuel enough
    ([JSON_parse_fuel] below). *)
Definition JSON_parse (s : string) : Result json :=
  match parse_value (2 * String.length s + 2) s with
  | Some (v, r) =>
      match skip_ws r with
      | EmptyString => Ok v
      | String _ _ => Throw (SyntaxError "Unexpected non-whitespace character after JSON")
      end
  | None => Throw (SyntaxError "Unexpected token in JSON")
  end.

End Js.

Import Js.
Local Open Scope list_scope.

(** ** Truthiness *)

(** An optional number is truthy when it is set and not zero. *)
Definition truthy_number (x : option Z) : bool :=
  match x with
  | Some n => negb (n =? 0)
  | None => false
  end.

(** [x || d]: [x] when it is truthy, [d] otherwise. *)
Definition or_number (x : option Z) (d : Z) : Z :=
  match x with
  | Some n => if n =? 0 then d else n
  | None => d
  end.

(** [x || undefined]. *)
Definition or_undefined (x : option Z) : option Z :=
  if truthy_number x then x else None.

(** A string is truthy when it is not empty. *)
Definition truthy_string (s : string) : bool := negb (String.eqb s "").

(** [s || undefined]. *)
Definition string_or_undefined (x : option string) : option string :=
  match x with
  | Some s => if truthy_string s then Some s else None
  | None => None
  end.

(** A double is truthy unless it is [0], [-0] or [NaN]. *)
Definition truthy_double (x : float) : bool := negb (is_zero x) && negb (is_nan x).

(** Truthiness of an optional cost: set and truthy. *)
Definition truthy_cost (x : option float) : bool :=
  match x with
  | Some q => truthy_double q
  | None => false
  end.

(** [x ?? d]. *)
Definition nullish (x : option Z) (d : Z) : Z :=
  match x with
  | Some n => n
  | None => d
  end.

(** ** The canonical content model *)

(** The declarations of [src/types.ts] are not among the sources: the types
    below are modelled from section 3 of the specification, the README and
    the fields the adapter reads and writes. *)

(** Modelled from the spec: [ContentBlock] of [src/types.ts], the tagged
    union of the six kinds the library exports; the constructor stands for
    the [type] tag. *)
Inductive ContentBlock : Type :=
| TextBlock (text : string)
| ImageBlock (url : string)
| ImageDataBlock (mimeType base64Data : string)
| ThinkingBlock (thinking signature : string)
| RedactedThinkingBlock (data : string)
| ToolUseBlock (name input : string).

(** The object a block is, keys in the order the library's literals write
    them. *)
Definition ContentBlock_json (b : ContentBlock) : json :=
  match b with
  | TextBlock text => JObj [("type", JStr "text"); ("text", JStr text)]
  | ImageBlock url => JObj [("type", JStr "image"); ("url", JStr url)]
  | ImageDataBlock mimeType base64Data =>
      JObj [("type", JStr "image_data"); ("mimeType", JStr mimeType);
            ("base64Data", JStr base64Data)]
  | ThinkingBlock thinking signature =>
      JObj [("type", JStr "thinking"); ("thinking", JStr thinking);
            ("signature", JStr signature)]
  | RedactedThinkingBlock data =>
      JObj [("type", JStr "redacted_thinking"); ("data", JStr data)]
  | ToolUseBlock name input =>
      JObj [("type", JStr "tool_use"); ("name", JStr name); ("input", JStr input)]
  end.

(** Modelled from the spec: the content of a [Message] of [src/types.ts],
    [string | ContentBlock[]] (the adapter tests [typeof] for the string). *)
Inductive MessageContent : Type :=
| ContentString (s : string)
| ContentBlocks (blocks : list ContentBlock).

(** Modelled from the spec: [Message] of [src/types.ts]. The role is a
    string: the adapter compares it with ["assistant"]. *)
Record Message : Type := {
  msg_role : string;
  msg_content : MessageContent
}.

(** Modelled from the spec: [UsageResponse] of [src/types.ts]. *)
Record UsageResponse : Type := {
  inputCost : float;
  outputCost : float;
  totalCost : float
}.

(** Modelled from the spec: [AIResponse] of [src/types.ts]. *)
Record AIResponse : Type := {
  role : string;
  content : list ContentBlock;
  usage : option UsageResponse
}.

(** Modelled from the spec: [ChatResponse] of [src/types.ts]. *)
Record ChatResponse : Type := {
  chat_role : string;
  chat_content : list ContentBlock;
  chat_usage : option UsageResponse
}.

(** Modelled from the spec: [MCPTool] of [src/types.ts], a tool definition
    as the caller hands it over; [input_schema] is any value ([None] is
    [undefined]). *)
Record MCPTool : Type := {
  tool_name : string;
  tool_description : string;
  tool_input_schema : option json
}.

(** Modelled from the spec: [ModelConfig] of [src/types.ts], with the field
    names the constructor reads. *)
Record ModelConfig : Type := {
  apiName : string;
  isVision : bool;
  isImageGeneration : bool;
  isThinking : bool;
  cfg_inputTokenCost : option float;
  cfg_outputTokenCost : option float
}.

(** Modelled from the spec: [VendorConfig] of [src/types.ts], the two fields
    the constructor reads. *)
Record VendorConfig : Type := {
  apiKey : string;
  baseURL : option string
}.

(** Modelled from the spec: [Chat] of [src/types.ts], the fields this
    adapter reads. *)
Record Chat : Type := {
  chat_model : string;
  responseHistory : list Message;
  prompt : string;
  chat_systemPrompt : option string;
  chat_maxTokens : option Z;
  chat_budgetTokens : option Z;
  mcpAvailableTools : option (list MCPTool)
}.

(** The double a token count is: the integer itself up to 2^53, the
    nearest double beyond. *)
Definition double_of_Z (n : Z) : float := SF2Prim (binary_normalize prec emax n 0 false).

(** Modelled from the spec: [computeResponseCost] of [src/utils.ts], which is
    not among the sources; section 4.3 gives it as
    [cost = tokenCount * (ratePerMillionTokens / 1_000_000)], here in the
    arithmetic of doubles. *)
Definition computeResponseCost (tokens : Z) (cost : float) : float :=
  (double_of_Z tokens * (cost / 1000000))%float.

(** ** The vendor's wire format (the SDK's types) *)

Inductive WireRole : Type := user | assistant.

(** [ContentBlockParam], as far as the adapter builds it. *)
Inductive ContentBlockParam : Type :=
| TextParam (text : string)
| ThinkingParam (thinking signature : string).

(** [MessageParam.content] is a string or an array of blocks. *)
Inductive ParamContent : Type :=
| ParamString (s : string)
| ParamBlocks (blocks : list ContentBlockParam).

Record MessageParam : Type := {
  param_role : WireRole;
  param_content : ParamContent
}.

Record AnthropicTool : Type := {
  name : string;
  description : string;
  input_schema : json
}.

(** [thinking: { type: "enabled", budget_tokens }]. *)
Record ThinkingConfigEnabled : Type := {
  budget_tokens : Z
}.

(** The argument of [client.messages.create]; a key the spread leaves out is
    [None]. *)
Record MessageCreateParams : Type := {
  req_model : string;
  req_messages : list MessageParam;
  system : option string;
  max_tokens : Z;
  thinking : option ThinkingConfigEnabled;
  req_tools : option (list AnthropicTool)
}.

(** A block of the vendor's response. The three kinds the adapter reads, the
    redacted reasoning block of the SDK, and any kind of a later API. *)
Inductive AnthropicContentBlock : Type :=
| AText (text : string)
| AThinking (thinking : string) (signature : option string)
| AToolUse (id name : string) (input : json)
| ARedactedThinking (data : string)
| AOther (type : string).

Definition block_type (b : AnthropicContentBlock) : string :=
  match b with
  | AText _ => "text"
  | AThinking _ _ => "thinking"
  | AToolUse _ _ _ => "tool_use"
  | ARedactedThinking _ => "redacted_thinking"
  | AOther type => type
  end.

Record AnthropicUsage : Type := {
  input_tokens : option Z;
  output_tokens : option Z
}.

Record AnthropicMessage : Type := {
  vendor_content : list AnthropicContentBlock;
  vendor_usage : AnthropicUsage
}.

(** The client [new Anthropic({ apiKey, baseURL })]. *)
Record Anthropic : Type := {
  client_apiKey : string;
  client_baseURL : option string
}.

(** Modelled from the spec: [AIRequestOptions] of [src/types.ts], the fields
    [generateResponse] destructures; an absent [thinkingMode] behaves as
    [false]. *)
Record AIRequestOptions : Type := {
  model : string;
  messages : list Message;
  maxTokens : option Z;
  budgetTokens : option Z;
  systemPrompt : option string;
  thinkingMode : bool;
  tools : option (list AnthropicTool)
}.

(** ** Effects: exceptions and the log of vendor calls *)

Definition Log : Type := list MessageCreateParams.

Definition M (A : Type) : Type := Log -> Result A * Log.

Definition ret {A} (a : A) : M A := fun log => (Ok a, log).

Definition bind {A B} (m : M A) (k : A -> M B) : M B :=
  fun log =>
    match m log with
    | (Ok a, log') => k a log'
    | (Throw e, log') => (Throw e, log')
    end.

Definition throw {A} (e : JsError) : M A := fun log => (Throw e, log).

Definition lift {A} (r : Result A) : M A := fun log => (r, log).

Notation "x <- m ;; k" := (bind m (fun x => k))
  (at level 61, m at next level, right associativity).

Definition try_catch {A} (body : Result A) (handler : JsError -> Result A)
  : Result A :=
  match body with
  | Ok a => Ok a
  | Throw e => handler e
  end.

(** [Array.prototype.map] with a callback that may throw. *)
Fixpoint map_result {A B} (f : A -> Result B) (l : list A) : Result (list B) :=
  match l with
  | [] => Ok []
  | x :: r =>
      match f x with
      | Throw e => Throw e
      | Ok y =>
          match map_result f r with
          | Throw e => Throw e
          | Ok ys => Ok (y :: ys)
          end
      end
  end.

(** ** The class [AnthropicAdapter] *)

Record AnthropicAdapter : Type := {
  client : Anthropic;
  isVisionCapable : bool;
  isImageGenerationCapable : bool;
  isThinkingCapable : bool;
  inputTokenCost : option float;
  outputTokenCost : option float
}.

(** The constructor: the costs are stored only when both are truthy. *)
Definition new_AnthropicAdapter (config : VendorConfig) (modelConfig : ModelConfig)
  : AnthropicAdapter :=
  let both :=
    truthy_cost (cfg_inputTokenCost modelConfig)
    && truthy_cost (cfg_outputTokenCost modelConfig) in
  {| client := {| client_apiKey := apiKey config; client_baseURL := baseURL config |};
     isVisionCapable := isVision modelConfig;
     isImageGenerationCapable := isImageGeneration modelConfig;
     isThinkingCapable := isThinking modelConfig;
     inputTokenCost := if both then cfg_inputTokenCost modelConfig else None;
     outputTokenCost := if both then cfg_outputTokenCost modelConfig else None |}.

(** The [reduce] of [generateResponse]: text and thinking blocks are pushed,
    every other kind leaves the accumulator as it is. *)
Definition mapContent (blocks : list ContentBlock) : list ContentBlockParam :=
  fold_left
    (fun acc block =>
       match block with
       | TextBlock text => acc ++ [TextParam text]
       | ThinkingBlock thinking signature => acc ++ [ThinkingParam thinking signature]
       | _ => acc
       end)
    blocks [].

(** The callback of [messages.map]. *)
Definition formatMessage (msg : Message) : MessageParam :=
  let role := if String.eqb (msg_role msg) "assistant" then assistant else user in
  match msg_content msg with
  | ContentString s => {| param_role := role; param_content := ParamString s |}
  | ContentBlocks blocks =>
      let mappedContent := mapContent blocks in
      {| param_role := role;
         param_content :=
           if (0 <? length mappedContent)%nat then ParamBlocks mappedContent
           else ParamString (JSON_stringify (JArr (map ContentBlock_json blocks))) |}
  end.

(** The argument the adapter passes to [client.messages.create]. *)
Definition createParams (this : AnthropicAdapter) (options : AIRequestOptions)
  : MessageCreateParams :=
  {| req_model := model options;
     req_messages := map formatMessage (messages options);
     system := systemPrompt options;
     max_tokens := or_number (maxTokens options) 1024;
     thinking :=
       if thinkingMode options && isThinkingCapable this then
         Some {| budget_tokens :=
                   or_number (budgetTokens options)
                             (or_number (maxTokens options) 1024 / 2) |}
       else None;
     req_tools := tools options |}.

(** The usage of a response: computed when the four values are truthy. *)
Definition computeUsage (this : AnthropicAdapter) (response : AnthropicMessage)
  : option UsageResponse :=
  match input_tokens (vendor_usage response), output_tokens (vendor_usage response),
        inputTokenCost this, outputTokenCost this with
  | Some i, Some o, Some ic, Some oc =>
      if negb (i =? 0) && negb (o =? 0) && truthy_double ic && truthy_double oc
      then
        let inputCost := computeResponseCost i ic in
        let outputCost := computeResponseCost o oc in
        Some {| inputCost := inputCost;
                outputCost := outputCost;
                totalCost := (inputCost + outputCost)%float |}
      else None
  | _, _, _, _ => None
  end.

(** The loop over [response.content]. *)
Definition mapResponseContent (blocks : list AnthropicContentBlock)
  : list ContentBlock :=
  fold_left
    (fun contentBlocks block =>
       match block with
       | AThinking thinking _ => contentBlocks ++ [ThinkingBlock thinking "anthropic"]
       | AText text => contentBlocks ++ [TextBlock text]
       | AToolUse _ name input =>
           contentBlocks ++ [ToolUseBlock name (JSON_stringify input)]
       | _ => contentBlocks
       end)
    blocks [].

Definition fallbackSchema : json :=
  JObj [("type", JStr "object"); ("properties", JObj [])].

(** ["type" in v] for a value whose [typeof] is ["object"] and which is not
    [null]: an own property of an object; an array has none of that name,
    and neither prototype has. *)
Definition has_type (v : json) : bool :=
  match v with
  | JObj kvs => existsb (fun kv => String.eqb (fst kv) "type") kvs
  | _ => false
  end.

(** [typeof v === "object" && v !== null]. *)
Definition is_object (v : json) : bool :=
  match v with
  | JObj _ | JArr _ => true
  | _ => false
  end.

(** The schema the callback of [mcpAvailableTools.map] settles on. *)
Definition schemaObject (tool : MCPTool) : Result json :=
  match tool_input_schema tool with
  | Some (JStr text) =>
      try_catch
        match JSON_parse text with
        | Throw e => Throw e
        | Ok parsedSchema =>
            if is_object parsedSchema && has_type parsedSchema then Ok parsedSchema
            else Ok fallbackSchema
        end
        (fun error => Ok fallbackSchema)
  | Some v =>
      if is_object v then
        if has_type v then Ok v else Ok fallbackSchema
      else Ok fallbackSchema
  | None => Ok fallbackSchema
  end.

Definition formatTool (tool : MCPTool) : Result AnthropicTool :=
  match schemaObject tool with
  | Throw e => Throw e
  | Ok schema =>
      Ok {| name := tool_name tool;
            description := tool_description tool;
            input_schema := schema |}
  end.

Definition formatTools (chat : Chat) : Result (option (list AnthropicTool)) :=
  match mcpAvailableTools chat with
  | Some available =>
      if (0 <? length available)%nat then
        match map_result formatTool available with
        | Throw e => Throw e
        | Ok formatted => Ok (Some formatted)
        end
      else Ok None
  | None => Ok None
  end.

Section Adapter.

(** The vendor behind the client: what [client.messages.create] resolves to,
    or the failure it rejects with. *)
Variable messages_create : Anthropic -> MessageCreateParams -> Result AnthropicMessage.

Definition call_vendor (c : Anthropic) (request : MessageCreateParams)
  : M AnthropicMessage :=
  fun log => (messages_create c request, log ++ [request]).

Definition generateResponse (this : AnthropicAdapter) (options : AIRequestOptions)
  : M AIResponse :=
  response <- call_vendor (client this) (createParams this options) ;;
  ret {| role := "assistant";
         content := mapResponseContent (vendor_content response);
         usage := computeUsage this response |}.

Definition generateImage (this : AnthropicAdapter) (chat : Chat) : M string :=
  throw (Error "Image generation not supported by Anthropic").

Definition messagesToSend (chat : Chat) : list Message :=
  if truthy_string (prompt chat) then
    responseHistory chat
      ++ [{| msg_role := "user";
             msg_content := ContentBlocks [TextBlock (prompt chat)] |}]
  else responseHistory chat.

Definition sendChat (this : AnthropicAdapter) (chat : Chat) : M ChatResponse :=
  formattedTools <- lift (formatTools chat) ;;
  response <-
    generateResponse this
      {| model := chat_model chat;
         messages := messagesToSend chat;
         maxTokens := or_undefined (chat_maxTokens chat);
         budgetTokens := or_undefined (chat_budgetTokens chat);
         systemPrompt := string_or_undefined (chat_systemPrompt chat);
         thinkingMode := 0 <? nullish (chat_budgetTokens chat) 0;
         tools := formattedTools |} ;;
  ret {| chat_role := role response;
         chat_content := content response;
         chat_usage := usage response |}.

(** The operations of the class: its three methods. *)
Inductive Operation : Type :=
| GenerateResponse (options : AIRequestOptions)
| GenerateImage (chat : Chat)
| SendChat (chat : Chat).

Inductive Outcome : Type :=
| Response (r : AIResponse)
| Image (s : string)
| ChatOutcome (r : ChatResponse).

Definition invoke (this : AnthropicAdapter) (op : Operation) : M Outcome :=
  match op with
  | GenerateResponse options => r <- generateResponse this options ;; ret (Response r)
  | GenerateImage chat => s <- generateImage this chat ;; ret (Image s)
  | SendChat chat => r <- sendChat this chat ;; ret (ChatOutcome r)
  end.

End Adapter.

(** ** The vocabulary of the statements *)

(** What the outbound [reduce] pushes for one block. *)
Definition param_of (b : ContentBlock) : list ContentBlockParam :=
  match b with
  | TextBlock text => [TextParam text]
  | ThinkingBlock thinking signature => [ThinkingParam thinking signature]
  | _ => []
  end.

(** What the inbound loop pushes for one block. *)
Definition block_of (b : AnthropicContentBlock) : list ContentBlock :=
  match b with
  | AThinking thinking _ => [ThinkingBlock thinking "anthropic"]
  | AText text => [TextBlock text]
  | AToolUse _ name input => [ToolUseBlock name (JSON_stringify input)]
  | _ => []
  end.

(** The kinds the outbound mapping has a wire form for. *)
Definition supported (b : ContentBlock) : bool :=
  match b with
  | TextBlock _ | ThinkingBlock _ _ => true
  | _ => false
  end.

(** The vendor handing a block of the request back in a response: the same
    kind with the same fields. *)
Definition echo (p : ContentBlockParam) : AnthropicContentBlock :=
  match p with
  | TextParam text => AText text
  | ThinkingParam thinking signature => AThinking thinking (Some signature)
  end.

Definition roundtrip (blocks : list ContentBlock) : list ContentBlock :=
  mapResponseContent (map echo (mapContent blocks)).

(** A block with the signature the inbound loop writes. *)
Definition resign (b : ContentBlock) : ContentBlock :=
  match b with
  | ThinkingBlock thinking _ => ThinkingBlock thinking "anthropic"
  | _ => b
  end.

Definition is_image (b : ContentBlock) : bool :=
  match b with
  | ImageBlock _ | ImageDataBlock _ _ => true
  | _ => false
  end.

(** A cost the truthiness tests take for missing: not set, or zero (of
    either sign). *)
Definition zero_or_unset (x : option float) : Prop :=
  match x with
  | Some q => is_zero q = true
  | None => True
  end.

(** The reasoning budget in the words of section 4.2 of the specification:
    [budgetTokens] if positive, else the floor of half of [maxTokens], which
    is 1024 when unset. *)
Definition spec_budget (options : AIRequestOptions) : Z :=
  let half :=
    match maxTokens options with
    | Some m => m / 2
    | None => 1024 / 2
    end in
  match budgetTokens options with
  | Some b => if 0 <? b then b else half
  | None => half
  end.

(** The tool schemas the adapter replaces: a string that does not parse, or
    parses to something that is no object, or to an object without a [type]
    property; an object given as such without a [type] property; and a value
    that is neither a string nor an object. *)
Inductive malformed_schema : option json -> Prop :=
| schema_unparseable text e :
    JSON_parse text = Throw e -> malformed_schema (Some (JStr text))
| schema_parses_to_non_object text v :
    JSON_parse text = Ok v -> is_object v = false -> malformed_schema (Some (JStr text))
| schema_parses_without_type text v :
    JSON_parse text = Ok v -> has_type v = false -> malformed_schema (Some (JStr text))
| schema_object_without_type kvs :
    has_type (JObj kvs) = false -> malformed_schema (Some (JObj kvs))
| schema_other_value v :
    (forall text, v <> JStr text) -> is_object v = false -> malformed_schema (Some v)
| schema_undefined : malformed_schema None.

(** The user message [sendChat] makes of the prompt. *)
Definition promptMessage (chat : Chat) : Message :=
  {| msg_role := "user"; msg_content := ContentBlocks [TextBlock (prompt chat)] |}.

(** The kinds the inbound loop pushes. *)
Definition emitted (b : ContentBlock) : bool :=
  match b with
  | TextBlock _ | ThinkingBlock _ _ | ToolUseBlock _ _ => true
  | _ => false
  end.

(** The kinds of the vendor's blocks the inbound loop has a branch for. *)
Definition recognized (b : AnthropicContentBlock) : bool :=
  match b with
  | AText _ | AThinking _ _ | AToolUse _ _ _ => true
  | _ => false
  end.

(** A payload with nothing in it. *)
Definition empty_payload (c : ParamContent) : bool :=
  match c with
  | ParamString s => String.eqb s ""
  | ParamBlocks blocks => match blocks with [] => true | _ => false end
  end.

(** The message a caller makes of content the adapter returned, to send it
    back as history. *)
Definition assistantMessage (content : list ContentBlock) : Message :=
  {| msg_role := "assistant"; msg_content := ContentBlocks content |}.

(** The user message the prompt is sent as. *)
Definition promptParam (chat : Chat) : MessageParam :=
  {| param_role := user; param_content := ParamBlocks [TextParam (prompt chat)] |}.

(** The options [sendChat] hands to [generateResponse], given the tools it
    has formatted. *)
Definition chatOptions (chat : Chat) (formattedTools : option (list AnthropicTool))
  : AIRequestOptions :=
  {| model := chat_model chat;
     messages := messagesToSend chat;
     maxTokens := or_undefined (chat_maxTokens chat);
     budgetTokens := or_undefined (chat_budgetTokens chat);
     systemPrompt := string_or_undefined (chat_systemPrompt chat);
     thinkingMode := 0 <? nullish (chat_budgetTokens chat) 0;
     tools := formattedTools |}.

(** The values a tool supplies as its schema: the value of [input_schema],
    and what it parses to when it is a string. *)
Definition supplied_schema (tool : MCPTool) (v : json) : Prop :=
  tool_input_schema tool = Some v
  \/ exists text, tool_input_schema tool = Some (JStr text) /\ JSON_parse text = Ok v.

(** Distinct keys: no key is written twice. *)
Fixpoint distinct (l : list string) : bool :=
  match l with
  | [] => true
  | k :: r => negb (existsb (String.eqb k) r) && distinct r
  end.

(** The JSON values [JSON.stringify] writes in a form [JSON.parse] reads
    back as the same value: no key twice in an object, and for numbers the
    integers of at most 21 digits, written [JNum m 0]. *)
Fixpoint plain (j : json) : bool :=
  match j with
  | JNum m e => (e =? 0) && Nat.leb (String.length (digits (Z.abs m))) 21
  | JArr xs => forallb plain xs
  | JObj kvs =>
      distinct (map fst kvs)
      && forallb (fun kv : string * json => let (_, v) := kv in plain v) kvs
  | _ => true
  end.

(** A text after which a number ends: nothing, or a character that is no
    digit, point or exponent mark. *)
Definition delimited (rest : string) : bool :=
  match rest with
  | EmptyString => true
  | String c _ =>
      match digit_val c with
      | Some _ => false
      | None => negb (Ascii.eqb c "." || (Ascii.eqb c "e" || Ascii.eqb c "E"))
      end
  end.

(** The first character of a value: no white space and no closing bracket. *)
Definition opener (c : ascii) : bool :=
  negb (is_ws c) && negb (Ascii.eqb "]" c) && negb (Ascii.eqb "}" c).

(** With fuel enough, the reader takes the text of [j] off the front of a
    text and returns [j]. *)
Definition reads_back (j : json) : Prop :=
  forall rest, delimited rest = true ->
    exists f0, forall f, (f0 <= f)%nat ->
      parse_value f (JSON_stringify j ++ rest)%string = Some (j, rest).

(** A property of an object as [JSON.stringify] writes it. *)
Definition member (kv : string * json) : string :=
  let (k, v) := kv in (QuoteJSONString k ++ ":" ++ JSON_stringify v)%string.

(** ** Fixtures: the configurations, chats and vendors of the test-suite *)

Definition mockConfig : VendorConfig :=
  {| apiKey := "test-anthropic-key"; baseURL := None |}.

Definition mockClaude3Opus : ModelConfig :=
  {| apiName := "claude-3-opus-20240229";
     isVision := true;
     isImageGeneration := false;
     isThinking := true;
     cfg_inputTokenCost := Some (15 / 1000000)%float;
     cfg_outputTokenCost := Some (75 / 1000000)%float |}.


(** A vendor that resolves every call to the same message. *)
Definition replying (m : AnthropicMessage)
  : Anthropic -> MessageCreateParams -> Result AnthropicMessage :=
  fun _ _ => Ok m.

Definition basicOptions (msgs : list Message) : AIRequestOptions :=
  {| model := "claude-3-opus-20240229";
     messages := msgs;
     maxTokens := None;
     budgetTokens := None;
     systemPrompt := None;
     thinkingMode := false;
     tools := None |}.

Definition reply (blocks : list AnthropicContentBlock) (i o : option Z)
  : AnthropicMessage :=
  {| vendor_content := blocks;
     vendor_usage := {| input_tokens := i; output_tokens := o |} |}.

Definition opusAdapter : AnthropicAdapter :=
  new_AnthropicAdapter mockConfig mockClaude3Opus.

(** The request and the response of the two thinking-block tests. *)
Definition thinkingMessages : list Message :=
  [{| msg_role := "user";
      msg_content := ContentBlocks [ThinkingBlock "Let me think..." "test-sig"] |}].

Definition thinkingReply : AnthropicMessage :=
  reply [AThinking "Assistant is thinking..." None; AText "Here is the result."]
        (Some 25) (Some 15).

Definition thinkingResponse : AIResponse :=
  {| role := "assistant";
     content := [ThinkingBlock "Assistant is thinking..." "anthropic";
                 TextBlock "Here is the result."];
     usage := computeUsage opusAdapter thinkingReply |}.

Definition imageBlocks : list ContentBlock :=
  [ImageBlock "http://example.com/image.png";
   ImageDataBlock "image/jpeg" "base64jpegstring"].

Definition imageOnly : Message :=
  {| msg_role := "user"; msg_content := ContentBlocks imageBlocks |}.

Definition testChat : Chat :=
  {| chat_model := "claude-3-opus-20240229";
     responseHistory := [];
     prompt := "test";
     chat_systemPrompt := None;
     chat_maxTokens := Some 100;
     chat_budgetTokens := None;
     mcpAvailableTools := None |}.


(** A model with an input cost and no output cost. *)
Definition inputOnly : ModelConfig :=
  {| apiName := "claude-3-opus-20240229";
     isVision := true;
     isImageGeneration := false;
     isThinking := true;
     cfg_inputTokenCost := Some (15 / 1000000)%float;
     cfg_outputTokenCost := None |}.

Definition hello : AnthropicMessage := reply [AText "Hi there!"] (Some 10) (Some 5).

Definition noOutput : AnthropicMessage := reply [AText ""] (Some 10) (Some 0).

Definition thinkingOptions (maxTokens budgetTokens : option Z) : AIRequestOptions :=
  {| model := "claude-3-opus-20240229";
     messages := [];
     maxTokens := maxTokens;
     budgetTokens := budgetTokens;
     systemPrompt := None;
     thinkingMode := true;
     tools := None |}.

Definition notJson : MCPTool :=
  {| tool_name := "search";
     tool_description := "Search the web";
     tool_input_schema := Some (JStr "not json") |}.

(** The two scenarios of the test-suite: a history of two turns with thinking
    off, and a budget of 500. *)
Definition chatWithHistory : Chat :=
  {| chat_model := "claude-3-opus-20240229";
     responseHistory :=
       [{| msg_role := "user";
           msg_content := ContentBlocks [TextBlock "Previous question"] |};
        {| msg_role := "assistant";
           msg_content := ContentBlocks [TextBlock "Previous answer"] |}];
     prompt := "Current question";
     chat_systemPrompt := Some "System prompt";
     chat_maxTokens := Some 100;
     chat_budgetTokens := None;
     mcpAvailableTools := None |}.

Definition chatWithThinking : Chat :=
  {| chat_model := "claude-3-opus-20240229";
     responseHistory := [];
     prompt := "Think about this";
     chat_systemPrompt := Some "System prompt";
     chat_maxTokens := Some 100;
     chat_budgetTokens := Some 500;
     mcpAvailableTools := None |}.

(** A response that asks for a tool, with a redacted reasoning block. *)
Definition toolReply : AnthropicMessage :=
  reply [AText "Let me check.";
         ARedactedThinking "opaque";
         AToolUse "toolu_01" "get_weather" (JObj [("city", JStr "Paris")])]
        (Some 25) (Some 15).

(** A reply that asks for a tool and says nothing else. *)
Definition toolOnlyReply : AnthropicMessage :=
  reply [AToolUse "toolu_02" "get_weather" (JObj [("city", JStr "Paris")])]
        (Some 25) (Some 15).

Definition toolResponse : AIResponse :=
  {| role := "assistant";
     content := [TextBlock "Let me check.";
                 ToolUseBlock "get_weather"
                   (JSON_stringify (JObj [("city", JStr "Paris")]))];
     usage := computeUsage opusAdapter toolReply |}.

(** A search tool whose schema is an object, and one whose schema is the
    JSON text of that object. *)
Definition searchSchema : json :=
  JObj [("type", JStr "object");
        ("properties", JObj [("q", JObj [("type", JStr "string")])])].

Definition searchTool : MCPTool :=
  {| tool_name := "search";
     tool_description := "Search the web";
     tool_input_schema := Some searchSchema |}.

Definition searchToolText : MCPTool :=
  {| tool_name := "search";
     tool_description := "Search the web";
     tool_input_schema := Some (JStr (JSON_stringify searchSchema)) |}.

Definition chatWithTools : Chat :=
  {| chat_model := "claude-3-opus-20240229";
     responseHistory := [];
     prompt := "Find it";
     chat_systemPrompt := Some "";
     chat_maxTokens := Some 0;
     chat_budgetTokens := Some 500;
     mcpAvailableTools := Some [searchTool; notJson] |}.

(** * Properties *)

(** ** The fuel of the JSON reader *)

Lemma skip_ws_length s : (String.length (skip_ws s) <= String.length s)%nat.
Proof.
  induction s as [|c r IH]; simpl; [lia|].
  destruct (is_ws c); simpl; lia.
Qed.

Lemma starts_with_length c s r :
  starts_with c s = Some r -> String.length s = S (String.length r).
Proof.
  destruct s as [|d s']; simpl; [discriminate|].
  destruct (Ascii.eqb c d); [|discriminate]. now intros [= ->].
Qed.

Lemma read_digits_length s acc cnt a c r :
  read_digits s acc cnt = (a, c, r) -> (String.length r <= String.length s)%nat.
Proof.
  revert acc cnt. induction s as [|ch s' IH]; simpl; intros acc cnt H.
  - injection H as _ _ <-. simpl. lia.
  - destruct (digit_val ch).
    + apply IH in H. lia.
    + injection H as _ _ <-. simpl. lia.
Qed.

Lemma strip_prefix_length p s r :
  strip_prefix p s = Some r -> (String.length r <= String.length s)%nat.
Proof.
  revert s. induction p as [|a p' IH]; intros s; simpl.
  - now intros [= ->].
  - destruct s as [|b s']; [discriminate|].
    destruct (Ascii.eqb a b); [|discriminate].
    intros H. apply IH in H. simpl. lia.
Qed.

Lemma literal_length p v s w r :
  literal p v s = Some (w, r) -> (String.length r <= String.length s)%nat.
Proof.
  unfold literal. destruct (strip_prefix p s) eqn:E; [|discriminate].
  intros [= _ <-]. eapply strip_prefix_length; eauto.
Qed.

Lemma parse_chars_length n : forall s acc str r,
  (String.length s <= n)%nat ->
  parse_chars s acc = Some (str, r) -> (String.length r < String.length s)%nat.
Proof.
  induction n as [|n IH]; intros s acc str r Hn H.
  - destruct s; [discriminate H|simpl in Hn; lia].
  - destruct s as [|c s1]; [discriminate H|]. simpl in H, Hn.
    destruct (Ascii.eqb c quote).
    { injection H as _ <-. simpl. lia. }
    destruct (Ascii.eqb c backslash).
    + destruct s1 as [|e s2]; [discriminate|].
      destruct (Ascii.eqb e "u").
      * destruct s2 as [|h1 [|h2 [|h3 [|h4 s3]]]]; try discriminate.
        destruct (hex4 h1 h2 h3 h4); [|discriminate].
        apply IH in H; simpl in *; lia.
      * destruct (simple_escape e); [|discriminate].
        apply IH in H; simpl in *; lia.
    + destruct (Nat.ltb (nat_of_ascii c) 32); [discriminate|].
      apply IH in H; simpl in *; lia.
Qed.

Lemma read_exponent_length s mant fc v r :
  read_exponent s mant fc = Some (v, r) -> (String.length r <= String.length s)%nat.
Proof.
  unfold read_exponent. destruct s as [|c s']; [now intros [= _ <-]|].
  destruct (Ascii.eqb c "e" || Ascii.eqb c "E").
  - destruct (read_sign s') as [eneg r1] eqn:Es.
    destruct (read_digits r1 0 0) as [[ev ec] r2] eqn:Ed.
    destruct (ec =? 0); [discriminate|]. intros [= _ <-].
    apply read_digits_length in Ed.
    assert (String.length r1 <= String.length s')%nat.
    { unfold read_sign in Es. destruct s' as [|d s'']; [now injection Es as _ <-|].
      destruct (Ascii.eqb d "-"); [injection Es as _ <-; simpl; lia|].
      destruct (Ascii.eqb d "+"); injection Es as _ <-; simpl; lia. }
    simpl. lia.
  - now intros [= _ <-].
Qed.

Lemma read_fraction_length s ip m fc r :
  read_fraction s ip = Some (m, fc, r) -> (String.length r <= String.length s)%nat.
Proof.
  unfold read_fraction. destruct s as [|c s']; [now intros [= _ _ <-]|].
  destruct (Ascii.eqb c ".").
  - destruct (read_digits s' ip 0) as [[fp fc'] r1] eqn:Ed.
    destruct (fc' =? 0); [discriminate|]. intros [= _ _ <-].
    apply read_digits_length in Ed. simpl. lia.
  - now intros [= _ _ <-].
Qed.

Lemma parse_number_length s v r :
  parse_number s = Some (v, r) -> (String.length r < String.length s)%nat.
Proof.
  unfold parse_number.
  set (p := match s with
            | String c r0 => if Ascii.eqb c "-" then (true, r0) else (false, s)
            | EmptyString => (false, s)
            end).
  assert (Hp : (String.length (snd p) <= String.length s)%nat).
  { subst p. destruct s as [|c r0]; simpl; [lia|].
    destruct (Ascii.eqb c "-"); simpl; lia. }
  destruct p as [neg s1]. simpl in Hp.
  destruct s1 as [|c r0]; [discriminate|].
  destruct (digit_val c) as [d|] eqn:Ec; [|discriminate].
  set (q := if d =? 0 then (0, 1, r0) else read_digits (String c r0) 0 0).
  assert (Hq : (String.length (snd q) <= String.length r0)%nat).
  { subst q. destruct (d =? 0); simpl; [lia|].
    rewrite Ec.
    match goal with |- context [read_digits r0 ?a ?b] =>
      destruct (read_digits r0 a b) as [[a' b'] r1] eqn:Ed end.
    apply read_digits_length in Ed. exact Ed. }
  destruct q as [[ip x] s2]. simpl in Hq.
  destruct (read_fraction s2 ip) as [[[mant fc] s3]|] eqn:Ef; [|discriminate].
  apply read_fraction_length in Ef.
  intros H. apply read_exponent_length in H. simpl in Hp. lia.
Qed.

Lemma parse_progress f :
  (forall s v r, parse_value f s = Some (v, r) ->
                 (String.length r < String.length s)%nat) /\
  (forall s acc v r, parse_elements f s acc = Some (v, r) ->
                     (String.length r < String.length s)%nat) /\
  (forall s acc v r, parse_members f s acc = Some (v, r) ->
                     (String.length r < String.length s)%nat).
Proof.
  induction f as [|f (IHv & IHe & IHm)]; [repeat split; discriminate|].
  split; [|split].
  - intros s v r. simpl.
    pose proof (skip_ws_length s) as Hs.
    destruct (skip_ws s) as [|c r0]; [discriminate|]. simpl in Hs.
    destruct (Ascii.eqb c "{").
    { pose proof (skip_ws_length r0) as Hr.
      destruct (starts_with "}" (skip_ws r0)) as [r'|] eqn:E.
      - apply starts_with_length in E. intros [= _ <-]. lia.
      - intros H. apply IHm in H. lia. }
    destruct (Ascii.eqb c "[").
    { pose proof (skip_ws_length r0) as Hr.
      destruct (starts_with "]" (skip_ws r0)) as [r'|] eqn:E.
      - apply starts_with_length in E. intros [= _ <-]. lia.
      - intros H. apply IHe in H. lia. }
    destruct (Ascii.eqb c quote).
    { destruct (parse_chars r0 []) as [[str r']|] eqn:E; [|discriminate].
      apply (parse_chars_length _ _ _ _ _ (le_n _)) in E. intros [= _ <-]. lia. }
    destruct (Ascii.eqb c "t"); [intros H; apply literal_length in H; lia|].
    destruct (Ascii.eqb c "f"); [intros H; apply literal_length in H; lia|].
    destruct (Ascii.eqb c "n"); [intros H; apply literal_length in H; lia|].
    intros H. apply parse_number_length in H. simpl in H. lia.
  - intros s acc v r. simpl.
    destruct (parse_value f s) as [[v0 r0]|] eqn:E; [|discriminate].
    apply IHv in E. pose proof (skip_ws_length r0) as Hr.
    destruct (skip_ws r0) as [|c r1]; [discriminate|]. simpl in Hr.
    destruct (Ascii.eqb c ","); [intros H; apply IHe in H; lia|].
    destruct (Ascii.eqb c "]"); [|discriminate]. intros [= _ <-]. lia.
  - intros s acc v r. simpl.
    pose proof (skip_ws_length s) as Hs.
    destruct (starts_with quote (skip_ws s)) as [r0|] eqn:E0; [|discriminate].
    apply starts_with_length in E0.
    destruct (parse_chars r0 []) as [[k r1]|] eqn:E1; [|discriminate].
    apply (parse_chars_length _ _ _ _ _ (le_n _)) in E1.
    pose proof (skip_ws_length r1) as Hr1.
    destruct (starts_with ":" (skip_ws r1)) as [r2|] eqn:E2; [|discriminate].
    apply starts_with_length in E2.
    destruct (parse_value f r2) as [[v0 r3]|] eqn:E3; [|discriminate].
    apply IHv in E3. pose proof (skip_ws_length r3) as Hr3.
    destruct (skip_ws r3) as [|c r4]; [discriminate|]. simpl in Hr3.
    destruct (Ascii.eqb c ","); [intros H; apply IHm in H; lia|].
    destruct (Ascii.eqb c "}"); [|discriminate]. intros [= _ <-]. lia.
Qed.

Lemma parse_fuel f : forall f',
  (forall s, (2 * String.length s + 2 <= f)%nat -> (2 * String.length s + 2 <= f')%nat ->
             parse_value f s = parse_value f' s) /\
  (forall s acc, (2 * String.length s + 3 <= f)%nat -> (2 * String.length s + 3 <= f')%nat ->
                 parse_elements f s acc = parse_elements f' s acc) /\
  (forall s acc, (2 * String.length s + 3 <= f)%nat -> (2 * String.length s + 3 <= f')%nat ->
                 parse_members f s acc = parse_members f' s acc).
Proof.
  induction f as [|f IH]; intros f'; [repeat split; intros; lia|].
  destruct f' as [|f']; [repeat split; intros; lia|].
  destruct (IH f') as (IHv & IHe & IHm). clear IH.
  split; [|split].
  - intros s Hf Hf'. simpl.
    pose proof (skip_ws_length s) as Hs.
    destruct (skip_ws s) as [|c r0]; [reflexivity|]. simpl in Hs.
    destruct (Ascii.eqb c "{").
    { destruct (starts_with "}" (skip_ws r0)); [reflexivity|]. apply IHm; lia. }
    destruct (Ascii.eqb c "[").
    { destruct (starts_with "]" (skip_ws r0)); [reflexivity|]. apply IHe; lia. }
    reflexivity.
  - intros s acc Hf Hf'. simpl.
    rewrite (IHv s) by lia.
    destruct (parse_value f' s) as [[v0 r0]|] eqn:E; [|reflexivity].
    apply (proj1 (parse_progress f')) in E.
    pose proof (skip_ws_length r0) as Hr.
    destruct (skip_ws r0) as [|c r1]; [reflexivity|]. simpl in Hr.
    destruct (Ascii.eqb c ","); [|reflexivity]. apply IHe; lia.
  - intros s acc Hf Hf'. simpl.
    pose proof (skip_ws_length s) as Hs.
    destruct (starts_with quote (skip_ws s)) as [r0|] eqn:E0; [|reflexivity].
    apply starts_with_length in E0.
    destruct (parse_chars r0 []) as [[k r1]|] eqn:E1; [|reflexivity].
    apply (parse_chars_length _ _ _ _ _ (le_n _)) in E1.
    pose proof (skip_ws_length r1) as Hr1.
    destruct (starts_with ":" (skip_ws r1)) as [r2|] eqn:E2; [|reflexivity].
    apply starts_with_length in E2.
    rewrite (IHv r2) by lia.
    destruct (parse_value f' r2) as [[v0 r3]|] eqn:E3; [|reflexivity].
    apply (proj1 (parse_progress f')) in E3.
    pose proof (skip_ws_length r3) as Hr3.
    destruct (skip_ws r3) as [|c r4]; [reflexivity|]. simpl in Hr3.
    destruct (Ascii.eqb c ","); [|reflexivity]. apply IHm; lia.
Qed.

(** The fuel of [JSON_parse] is enough: more of it reads the same value. *)
Lemma JSON_parse_fuel s f :
  (2 * String.length s + 2 <= f)%nat ->
  parse_value f s = parse_value (2 * String.length s + 2) s.
Proof.
  intros H. apply (proj1 (parse_fuel f (2 * String.length s + 2))); lia.
Qed.

(** ** The two mappings, block by block *)

Lemma fold_push {A B} (f : A -> list B) (g : list B -> A -> list B) :
  (forall acc x, g acc x = acc ++ f x) ->
  forall l acc, fold_left g l acc = acc ++ flat_map f l.
Proof.
  intros Hg l. induction l as [|x l IH]; intros acc; simpl.
  - now rewrite app_nil_r.
  - rewrite IH, Hg, <- app_assoc. reflexivity.
Qed.

Lemma mapContent_flat_map blocks : mapContent blocks = flat_map param_of blocks.
Proof.
  unfold mapContent. rewrite (fold_push param_of); [reflexivity|].
  intros acc [] ; simpl; now rewrite ?app_nil_r.
Qed.

Lemma mapResponseContent_flat_map blocks :
  mapResponseContent blocks = flat_map block_of blocks.
Proof.
  unfold mapResponseContent. rewrite (fold_push block_of); [reflexivity|].
  intros acc [] ; simpl; now rewrite ?app_nil_r.
Qed.

Lemma mapContent_app l1 l2 : mapContent (l1 ++ l2) = mapContent l1 ++ mapContent l2.
Proof. rewrite !mapContent_flat_map. apply flat_map_app. Qed.

Lemma mapResponseContent_app l1 l2 :
  mapResponseContent (l1 ++ l2) = mapResponseContent l1 ++ mapResponseContent l2.
Proof. rewrite !mapResponseContent_flat_map. apply flat_map_app. Qed.

(** Dropping preserves order and multiplicity: the outbound mapping is the
    supported blocks, each in its wire form. *)
Lemma mapContent_filter blocks :
  mapContent blocks = flat_map param_of (filter supported blocks).
Proof.
  rewrite mapContent_flat_map.
  induction blocks as [|b l IH]; simpl; [reflexivity|].
  destruct b; simpl; rewrite IH; reflexivity.
Qed.

(** The request of the first test of the suite, and the image block an
    adapter without an image mapping leaves out. *)
Example basic_request :
  createParams opusAdapter
    (basicOptions
       [{| msg_role := "user";
           msg_content := ContentBlocks [TextBlock "Hello Claude!"] |}])
  = {| req_model := "claude-3-opus-20240229";
       req_messages :=
         [{| param_role := user;
             param_content := ParamBlocks [TextParam "Hello Claude!"] |}];
       system := None;
       max_tokens := 1024;
       thinking := None;
       req_tools := None |}.
Proof. reflexivity. Qed.

Example image_data_is_dropped :
  formatMessage
    {| msg_role := "user";
       msg_content :=
         ContentBlocks [ImageDataBlock "image/jpeg" "base64jpegstring";
                        TextBlock "What is in this JPEG?"] |}
  = {| param_role := user;
       param_content := ParamBlocks [TextParam "What is in this JPEG?"] |}.
Proof. reflexivity. Qed.

(** ** Outbound, then inbound *)

Lemma roundtrip_cons b blocks :
  supported b = true -> roundtrip (b :: blocks) = resign b :: roundtrip blocks.
Proof.
  unfold roundtrip. intros Hb.
  change (b :: blocks) with ([b] ++ blocks).
  rewrite mapContent_app, map_app, mapResponseContent_app.
  destruct b; try discriminate Hb; reflexivity.
Qed.

Lemma roundtrip_resign blocks :
  forallb supported blocks = true -> roundtrip blocks = map resign blocks.
Proof.
  induction blocks as [|b l IH]; simpl; intros H; [reflexivity|].
  apply andb_true_iff in H as [Hb Hl].
  rewrite roundtrip_cons by assumption. now rewrite IH.
Qed.

Lemma map_resign_fixed blocks :
  map resign blocks = blocks <->
  (forall thinking signature,
      In (ThinkingBlock thinking signature) blocks -> signature = "anthropic").
Proof.
  induction blocks as [|b l IH]; simpl.
  - split; [intros _ ? ? []|reflexivity].
  - split.
    + intros H t s [Hb|Hin].
      * injection H as Hb' _. subst b. simpl in Hb'. now injection Hb' as ->.
      * injection H as _ Hl. exact (proj1 IH Hl t s Hin).
    + intros H. f_equal.
      * destruct b as [| | |t s| |]; simpl; try reflexivity.
        now rewrite (H t s) by (left; reflexivity).
      * apply IH. intros t s Hin. apply (H t s). now right.
Qed.

(** C1, as the claim states it, fails: a thinking block signed ["test-sig"]
    is sent out with that signature, and the vendor's echo of it comes back
    signed ["anthropic"]. *)
Lemma roundtrip_loses_signature :
  exists blocks,
    forallb supported blocks = true /\ roundtrip blocks <> blocks.
Proof.
  exists [ThinkingBlock "Let me think..." "test-sig"].
  split; [reflexivity|]. vm_compute. discriminate.
Qed.

(** C1, amended: on a sequence of text and thinking blocks, the outbound
    mapping followed by the inbound mapping of the vendor's echo keeps the
    number and the order of the blocks, every text block with its text and
    every thinking block with its thinking text; the signature that comes
    back is the literal ["anthropic"], so the sequence is returned unchanged
    exactly when every signature in it already was ["anthropic"]. *)
Theorem roundtrip_supported (blocks : list ContentBlock) :
  forallb supported blocks = true ->
  roundtrip blocks = map resign blocks /\
  (forall i text,
      nth_error blocks i = Some (TextBlock text) ->
      nth_error (roundtrip blocks) i = Some (TextBlock text)) /\
  (forall i thinking signature,
      nth_error blocks i = Some (ThinkingBlock thinking signature) ->
      nth_error (roundtrip blocks) i = Some (ThinkingBlock thinking "anthropic")) /\
  (roundtrip blocks = blocks <->
   forall thinking signature,
     In (ThinkingBlock thinking signature) blocks -> signature = "anthropic").
Proof.
  intros H. rewrite (roundtrip_resign blocks H).
  repeat split.
  - intros i text Hi. rewrite nth_error_map, Hi. reflexivity.
  - intros i t s Hi. rewrite nth_error_map, Hi. reflexivity.
  - apply map_resign_fixed.
  - apply map_resign_fixed.
Qed.

Lemma roundtrip_supported_witness :
  forallb supported
    [TextBlock "Hello Claude!"; ThinkingBlock "Let me think..." "test-sig"] = true /\
  roundtrip [TextBlock "Hello Claude!"; ThinkingBlock "Let me think..." "test-sig"]
  = [TextBlock "Hello Claude!"; ThinkingBlock "Let me think..." "anthropic"].
Proof.
  split; [reflexivity|].
  exact (proj1 (roundtrip_supported
                  [TextBlock "Hello Claude!"; ThinkingBlock "Let me think..." "test-sig"]
                  eq_refl)).
Defined.

(** ** One run of [generateResponse] *)

(** The adapter calls the vendor once, with [createParams]; a failure of the
    vendor is passed on, a response is mapped. *)
Lemma generateResponse_run vendor this options log :
  generateResponse vendor this options log =
  match vendor (client this) (createParams this options) with
  | Ok response =>
      (Ok {| role := "assistant";
             content := mapResponseContent (vendor_content response);
             usage := computeUsage this response |},
       log ++ [createParams this options])
  | Throw e => (Throw e, log ++ [createParams this options])
  end.
Proof.
  unfold generateResponse, bind, call_vendor, ret.
  destruct (vendor (client this) (createParams this options)); reflexivity.
Qed.

Lemma generateResponse_inv vendor this options log r log' :
  generateResponse vendor this options log = (Ok r, log') ->
  exists response,
    vendor (client this) (createParams this options) = Ok response /\
    content r = mapResponseContent (vendor_content response) /\
    usage r = computeUsage this response /\
    role r = "assistant" /\
    log' = log ++ [createParams this options].
Proof.
  rewrite generateResponse_run.
  destruct (vendor (client this) (createParams this options)) as [response|e];
    intros H; inversion H; subst; clear H.
  exists response. repeat split; reflexivity.
Qed.

(** Runs [generateResponse] in the goal against a vendor known by [Hv] to
    resolve, and leaves the facts about the response to prove. *)
Ltac run_vendor Hv :=
  rewrite generateResponse_run, Hv; eexists; split; [reflexivity|]; simpl.

(** ** The thinking-block contract *)

Lemma inbound_signature blocks thinking signature :
  In (ThinkingBlock thinking signature) (mapResponseContent blocks) ->
  signature = "anthropic".
Proof.
  rewrite mapResponseContent_flat_map, in_flat_map.
  intros [b [_ Hb]].
  destruct b; simpl in Hb; try contradiction;
    destruct Hb as [Hb|[]]; now inversion Hb.
Qed.

(** C9: outbound, a thinking block goes into the request with its thinking
    text and its signature as they are, in its place among the blocks that
    are sent; inbound, a reasoning block the vendor sent without a signature
    becomes a thinking block signed with the fixed literal ["anthropic"];
    and every thinking block of a response [generateResponse] returns
    carries that signature, which is not empty. *)
Theorem thinking_signature_contract :
  (forall role pre thinking signature post,
      param_content
        (formatMessage
           {| msg_role := role;
              msg_content :=
                ContentBlocks (pre ++ ThinkingBlock thinking signature :: post) |})
      = ParamBlocks
          (mapContent pre ++ ThinkingParam thinking signature :: mapContent post)) /\
  (forall pre thinking post,
      mapResponseContent (pre ++ AThinking thinking None :: post)
      = mapResponseContent pre
          ++ ThinkingBlock thinking "anthropic" :: mapResponseContent post) /\
  (forall vendor this options log r log',
      generateResponse vendor this options log = (Ok r, log') ->
      forall thinking signature,
        In (ThinkingBlock thinking signature) (content r) ->
        signature = "anthropic" /\ signature <> "").
Proof.
  split; [|split].
  - intros r pre t s post. unfold formatMessage. simpl.
    change (ThinkingBlock t s :: post) with ([ThinkingBlock t s] ++ post).
    rewrite !mapContent_app. change (mapContent [ThinkingBlock t s]) with [ThinkingParam t s].
    simpl. rewrite length_app. simpl.
    destruct (0 <? length (mapContent pre) + S (length (mapContent post)))%nat eqn:E;
      [reflexivity|].
    apply Nat.ltb_ge in E. lia.
  - intros pre t post.
    change (AThinking t None :: post) with ([AThinking t None] ++ post).
    rewrite !mapResponseContent_app. reflexivity.
  - intros vendor this options log r log' H t s Hin.
    apply generateResponse_inv in H as (response & _ & Hc & _).
    rewrite Hc in Hin. apply inbound_signature in Hin. subst s.
    split; [reflexivity|discriminate].
Qed.

Lemma thinking_signature_contract_witness :
  generateResponse (replying thinkingReply) opusAdapter (basicOptions thinkingMessages) []
  = (Ok thinkingResponse, [createParams opusAdapter (basicOptions thinkingMessages)]) /\
  In (ThinkingBlock "Assistant is thinking..." "anthropic") (content thinkingResponse) /\
  "anthropic" = "anthropic" /\ "anthropic" <> "".
Proof.
  assert (run :
    generateResponse (replying thinkingReply) opusAdapter
      (basicOptions thinkingMessages) []
    = (Ok thinkingResponse, [createParams opusAdapter (basicOptions thinkingMessages)]))
    by reflexivity.
  split; [exact run|]. split; [left; reflexivity|].
  exact (proj2 (proj2 thinking_signature_contract) _ _ _ _ _ _ run
           "Assistant is thinking..." "anthropic" (or_introl eq_refl)).
Defined.

(** ** The fallback for a message with nothing to send *)

Lemma images_unsupported blocks :
  forallb is_image blocks = true -> filter supported blocks = [].
Proof.
  induction blocks as [|b l IH]; simpl; [reflexivity|].
  intros H. apply andb_true_iff in H as [Hb Hl].
  destruct b; try discriminate Hb; simpl; auto.
Qed.

Lemma stringify_array_nonempty xs : JSON_stringify (JArr xs) <> "".
Proof. simpl. discriminate. Qed.

(** What one message carries is never empty when its content is a sequence
    of blocks: an array with a block in it, or a text that is not empty. *)
Lemma formatMessage_nonempty msg blocks :
  msg_content msg = ContentBlocks blocks ->
  match param_content (formatMessage msg) with
  | ParamBlocks sent => sent <> []
  | ParamString text => text <> ""
  end.
Proof.
  intros H. unfold formatMessage. rewrite H. simpl.
  destruct (mapContent blocks) as [|p ps]; simpl.
  - discriminate.
  - discriminate.
Qed.

(** A message with a block to send is sent as the array the [reduce] built. *)
Lemma formatMessage_blocks msg blocks :
  msg_content msg = ContentBlocks blocks ->
  mapContent blocks <> [] ->
  param_content (formatMessage msg) = ParamBlocks (mapContent blocks).
Proof.
  intros H Hne. unfold formatMessage. rewrite H. simpl.
  destruct (mapContent blocks); [contradiction|reflexivity].
Qed.

(** C2: a message whose blocks are all of kinds the adapter drops (image
    blocks only, for one) is sent as one text, the JSON serialization of the
    original content, and that text is not empty. *)
Theorem formatMessage_fallback (msg : Message) (blocks : list ContentBlock) :
  msg_content msg = ContentBlocks blocks ->
  filter supported blocks = [] ->
  exists text,
    param_content (formatMessage msg) = ParamString text /\
    text = JSON_stringify (JArr (map ContentBlock_json blocks)) /\
    text <> "" /\
    (0 < String.length text)%nat.
Proof.
  intros Hc Hf.
  exists (JSON_stringify (JArr (map ContentBlock_json blocks))).
  repeat split.
  - unfold formatMessage. rewrite Hc, mapContent_filter, Hf. reflexivity.
  - apply stringify_array_nonempty.
  - simpl. lia.
Qed.

Lemma formatMessage_fallback_witness :
  forallb is_image imageBlocks = true /\
  exists text,
    param_content (formatMessage imageOnly) = ParamString text /\
    text = JSON_stringify (JArr (map ContentBlock_json imageBlocks)) /\
    text <> "" /\
    (0 < String.length text)%nat.
Proof.
  split; [reflexivity|].
  exact (formatMessage_fallback imageOnly imageBlocks eq_refl
           (images_unsupported imageBlocks eq_refl)).
Defined.

(** The text of that fallback reads back as the content it was made from. *)
Example imageOnly_fallback_parses :
  exists text,
    param_content (formatMessage imageOnly) = ParamString text /\
    String.length text = 133%nat /\
    JSON_parse text
    = Ok (JArr [JObj [("type", JStr "image");
                      ("url", JStr "http://example.com/image.png")];
                JObj [("type", JStr "image_data");
                      ("mimeType", JStr "image/jpeg");
                      ("base64Data", JStr "base64jpegstring")]]).
Proof.
  eexists. split; [reflexivity|]. split; vm_compute; reflexivity.
Qed.

(** ** Operations the model does not support *)

(** C8: on an adapter built from a configuration without image generation,
    [generateImage] throws the error saying so, on every chat, and calls no
    vendor; the adapter refuses by itself. *)
Theorem generateImage_unsupported
    (config : VendorConfig) (modelConfig : ModelConfig) (chat : Chat) (log : Log) :
  isImageGeneration modelConfig = false ->
  isImageGenerationCapable (new_AnthropicAdapter config modelConfig) = false /\
  generateImage (new_AnthropicAdapter config modelConfig) chat log
  = (Throw (Error "Image generation not supported by Anthropic"), log) /\
  forall vendor,
    invoke vendor (new_AnthropicAdapter config modelConfig) (GenerateImage chat) log
    = (Throw (Error "Image generation not supported by Anthropic"), log).
Proof.
  intros H. repeat split. exact H.
Qed.

Lemma generateImage_unsupported_witness :
  isImageGeneration mockClaude3Opus = false /\
  generateImage opusAdapter testChat []
  = (Throw (Error "Image generation not supported by Anthropic"), []).
Proof.
  split; [reflexivity|].
  exact (proj1 (proj2 (generateImage_unsupported mockConfig mockClaude3Opus testChat []
                         eq_refl))).
Defined.

(** The refusal does not read the flag: it is the same on every adapter. *)
Lemma generateImage_always_throws this chat log :
  generateImage this chat log
  = (Throw (Error "Image generation not supported by Anthropic"), log).
Proof. reflexivity. Qed.

(** ** Usage and cost *)

Set Warnings "-inexact-float".

Lemma truthy_cost_spec (x : option float) :
  truthy_cost x = true <-> exists q, x = Some q /\ truthy_double q = true.
Proof.
  destruct x as [q|]; simpl.
  - split.
    + intros H. exists q. now split.
    + intros (q' & E & H). now injection E as ->.
  - split; [discriminate|]. intros (q & E & _). discriminate.
Qed.

(** A truthy double is a number, and not zero. *)
Lemma truthy_double_spec (x : float) :
  truthy_double x = true <-> is_zero x = false /\ is_nan x = false.
Proof.
  unfold truthy_double. rewrite andb_true_iff, !negb_true_iff. reflexivity.
Qed.

(** The guard of the usage computation, value by value. *)
Lemma computeUsage_some this response u :
  computeUsage this response = Some u <->
  exists i o ic oc,
    input_tokens (vendor_usage response) = Some i /\ i <> 0 /\
    output_tokens (vendor_usage response) = Some o /\ o <> 0 /\
    inputTokenCost this = Some ic /\ truthy_double ic = true /\
    outputTokenCost this = Some oc /\ truthy_double oc = true /\
    u = {| inputCost := computeResponseCost i ic;
           outputCost := computeResponseCost o oc;
           totalCost := (computeResponseCost i ic + computeResponseCost o oc)%float |}.
Proof.
  unfold computeUsage.
  destruct (input_tokens (vendor_usage response)) as [i|],
           (output_tokens (vendor_usage response)) as [o|],
           (inputTokenCost this) as [ic|],
           (outputTokenCost this) as [oc|];
    try (split; [discriminate|intros (?&?&?&?&?&?&?&?&?&?&?&?&?); discriminate]).
  destruct (Z.eqb_spec i 0) as [Hi|Hi], (Z.eqb_spec o 0) as [Ho|Ho],
           (truthy_double ic) eqn:Hic, (truthy_double oc) eqn:Hoc;
    cbn [negb andb];
    try (split;
         [discriminate
         |intros (i'&o'&ic'&oc'&Ei&Ni&Eo&No&Eic&Nic&Eoc&Noc&_);
          injection Ei as <-; injection Eo as <-;
          injection Eic as <-; injection Eoc as <-;
          congruence]).
  split.
  - intros E. injection E as <-. exists i, o, ic, oc.
    repeat split; assumption.
  - intros (i'&o'&ic'&oc'&Ei&_&Eo&_&Eic&_&Eoc&_&->).
    injection Ei as <-; injection Eo as <-; injection Eic as <-; injection Eoc as <-.
    reflexivity.
Qed.

Lemma computeUsage_none this response :
  computeUsage this response = None <->
  truthy_number (input_tokens (vendor_usage response))
  && truthy_number (output_tokens (vendor_usage response))
  && truthy_cost (inputTokenCost this)
  && truthy_cost (outputTokenCost this) = false.
Proof.
  unfold computeUsage, truthy_number, truthy_cost.
  destruct (input_tokens (vendor_usage response)) as [i|],
           (output_tokens (vendor_usage response)) as [o|],
           (inputTokenCost this) as [ic|],
           (outputTokenCost this) as [oc|]; cbn [andb];
    rewrite ?andb_false_r; try (split; reflexivity).
  destruct (negb (i =? 0) && negb (o =? 0) && truthy_double ic && truthy_double oc);
    split; (reflexivity || discriminate).
Qed.




Lemma truthy_cost_false (x : option float) : zero_or_unset x -> truthy_cost x = false.
Proof.
  destruct x as [q|]; simpl; [|reflexivity].
  intros H. unfold truthy_double. now rewrite H.
Qed.

Lemma constructor_drops_costs config modelConfig :
  zero_or_unset (cfg_inputTokenCost modelConfig)
  \/ zero_or_unset (cfg_outputTokenCost modelConfig) ->
  inputTokenCost (new_AnthropicAdapter config modelConfig) = None /\
  outputTokenCost (new_AnthropicAdapter config modelConfig) = None.
Proof.
  intros H. unfold new_AnthropicAdapter. simpl.
  assert (E : truthy_cost (cfg_inputTokenCost modelConfig)
              && truthy_cost (cfg_outputTokenCost modelConfig) = false).
  { destruct H as [H|H]; apply truthy_cost_false in H; rewrite H;
      [reflexivity|apply andb_false_r]. }
  rewrite E. split; reflexivity.
Qed.

(** C10: the guards test truthiness, not presence. A response whose vendor
    reports 0 input tokens or 0 output tokens has no usage, on any adapter;
    and when either configured cost is 0 or is not set, the constructor
    stores neither cost and every response of that adapter has no usage. *)
Theorem usage_omitted_when_falsy :
  (forall vendor this options log response,
      vendor (client this) (createParams this options) = Ok response ->
      input_tokens (vendor_usage response) = Some 0
      \/ output_tokens (vendor_usage response) = Some 0 ->
      exists r,
        generateResponse vendor this options log
        = (Ok r, log ++ [createParams this options]) /\
        usage r = None) /\
  (forall vendor config modelConfig options log response,
      vendor (client (new_AnthropicAdapter config modelConfig))
        (createParams (new_AnthropicAdapter config modelConfig) options)
      = Ok response ->
      zero_or_unset (cfg_inputTokenCost modelConfig)
      \/ zero_or_unset (cfg_outputTokenCost modelConfig) ->
      inputTokenCost (new_AnthropicAdapter config modelConfig) = None /\
      outputTokenCost (new_AnthropicAdapter config modelConfig) = None /\
      exists r,
        generateResponse vendor (new_AnthropicAdapter config modelConfig) options log
        = (Ok r, log ++ [createParams (new_AnthropicAdapter config modelConfig) options]) /\
        usage r = None).
Proof.
  split.
  - intros vendor this options log response Hv H. run_vendor Hv.
    apply computeUsage_none. unfold truthy_number.
    destruct H as [H|H]; rewrite H; simpl; [reflexivity|].
    now rewrite andb_false_r.
  - intros vendor config modelConfig options log response Hv H.
    destruct (constructor_drops_costs config modelConfig H) as [Hi Ho].
    split; [exact Hi|]. split; [exact Ho|]. run_vendor Hv.
    apply computeUsage_none. rewrite Hi. simpl. now rewrite andb_false_r.
Qed.

Lemma usage_omitted_when_falsy_witness :
  (output_tokens (vendor_usage noOutput) = Some 0 /\
   exists r,
     generateResponse (replying noOutput) opusAdapter (basicOptions []) []
     = (Ok r, [createParams opusAdapter (basicOptions [])]) /\
     usage r = None) /\
  (zero_or_unset (cfg_outputTokenCost inputOnly) /\
   inputTokenCost (new_AnthropicAdapter mockConfig inputOnly) = None /\
   outputTokenCost (new_AnthropicAdapter mockConfig inputOnly) = None /\
   exists r,
     generateResponse (replying hello) (new_AnthropicAdapter mockConfig inputOnly)
       (basicOptions []) []
     = (Ok r, [createParams (new_AnthropicAdapter mockConfig inputOnly) (basicOptions [])]) /\
     usage r = None).
Proof.
  split.
  - split; [reflexivity|].
    exact (proj1 usage_omitted_when_falsy (replying noOutput) opusAdapter
             (basicOptions []) [] noOutput eq_refl (or_intror eq_refl)).
  - split; [exact I|].
    exact (proj2 usage_omitted_when_falsy (replying hello) mockConfig inputOnly
             (basicOptions []) [] hello eq_refl (or_intror I)).
Defined.

(** ** The request: [max_tokens] and the reasoning budget *)

(** C6, as the claim states it, fails: with thinking honoured, a budget of
    -5 is not positive, and the request carries -5, not the 50 that half of
    [maxTokens = 100] is. *)
Lemma negative_budget_is_sent :
  exists this options,
    thinkingMode options = true /\
    isThinkingCapable this = true /\
    thinking (createParams this options) = Some {| budget_tokens := -5 |} /\
    spec_budget options = 50.
Proof.
  exists opusAdapter, (thinkingOptions (Some 100) (Some (-5))).
  repeat split.
Qed.

(** C6, amended: [max_tokens] is [maxTokens], or 1024 when [maxTokens] is
    unset or zero; the request has a thinking block exactly when
    [thinkingMode] is on and the adapter is thinking-capable; its budget is
    then [budgetTokens] when that is set and not zero, else the integer
    floor of half of [max_tokens] (512 when [maxTokens] is unset too). That
    is the budget of the specification whenever [budgetTokens] is not
    negative and [maxTokens] is not zero. *)
Theorem createParams_thinking (this : AnthropicAdapter) (options : AIRequestOptions) :
  max_tokens (createParams this options)
  = match maxTokens options with
    | Some m => if m =? 0 then 1024 else m
    | None => 1024
    end /\
  (thinking (createParams this options) <> None <->
   thinkingMode options = true /\ isThinkingCapable this = true) /\
  (thinkingMode options = true ->
   isThinkingCapable this = true ->
   exists half,
     2 * half <= max_tokens (createParams this options) < 2 * half + 2 /\
     thinking (createParams this options)
     = Some {| budget_tokens :=
                 match budgetTokens options with
                 | Some b => if b =? 0 then half else b
                 | None => half
                 end |} /\
     (maxTokens options = None -> half = 512) /\
     ((forall b, budgetTokens options = Some b -> 0 <= b) ->
      maxTokens options <> Some 0 ->
      thinking (createParams this options)
      = Some {| budget_tokens := spec_budget options |})).
Proof.
  split; [|split].
  - reflexivity.
  - unfold createParams; simpl.
    destruct (thinkingMode options), (isThinkingCapable this); simpl;
      split; try discriminate; try tauto; intros [? ?]; discriminate.
  - intros Ht Hc. exists (max_tokens (createParams this options) / 2).
    split; [|split; [|split]].
    + pose proof (Z.div_mod (max_tokens (createParams this options)) 2 ltac:(lia)).
      pose proof (Z.mod_pos_bound (max_tokens (createParams this options)) 2 ltac:(lia)).
      lia.
    + unfold createParams; simpl. rewrite Ht, Hc. reflexivity.
    + intros Hm. unfold createParams; simpl. rewrite Hm. reflexivity.
    + intros Hb Hm. unfold createParams, spec_budget, or_number; simpl.
      rewrite Ht, Hc. simpl. do 2 f_equal.
      assert (Em : match maxTokens options with
                   | Some n => if n =? 0 then 1024 else n
                   | None => 1024
                   end / 2
                   = match maxTokens options with
                     | Some m => m / 2
                     | None => 1024 / 2
                     end).
      { destruct (maxTokens options) as [m|]; [|reflexivity].
        destruct (Z.eqb_spec m 0); [congruence|reflexivity]. }
      destruct (budgetTokens options) as [b|]; [|exact Em].
      specialize (Hb b eq_refl).
      destruct (Z.eqb_spec b 0) as [->|Hn].
      * simpl. exact Em.
      * destruct (Z.ltb_spec 0 b); [reflexivity|lia].
Qed.

Lemma createParams_thinking_witness :
  max_tokens (createParams opusAdapter (thinkingOptions None None)) = 1024 /\
  thinking (createParams opusAdapter (thinkingOptions None None))
  = Some {| budget_tokens := 512 |} /\
  thinking (createParams opusAdapter (thinkingOptions (Some 101) (Some 0)))
  = Some {| budget_tokens := 50 |} /\
  exists half,
    2 * half <= 100 < 2 * half + 2 /\
    thinking (createParams opusAdapter (thinkingOptions (Some 100) (Some 500)))
    = Some {| budget_tokens := 500 |}.
Proof.
  split; [reflexivity|]. split; [reflexivity|]. split; [reflexivity|].
  destruct (proj2 (proj2 (createParams_thinking opusAdapter
                            (thinkingOptions (Some 100) (Some 500))))
              eq_refl eq_refl) as (half & Hh & Ht & _).
  exists half. split; [exact Hh|exact Ht].
Defined.

(** ** Failures the mapping absorbs *)

Lemma schemaObject_malformed tool :
  malformed_schema (tool_input_schema tool) -> schemaObject tool = Ok fallbackSchema.
Proof.
  unfold schemaObject. intros H.
  inversion H as [text e Hp E|text v Hp Hv E|text v Hp Hv E|kvs Hv E|v Hs Hv E|E];
    clear H.
  - rewrite Hp. reflexivity.
  - rewrite Hp. simpl. rewrite Hv. reflexivity.
  - rewrite Hp. simpl. rewrite Hv, andb_false_r. reflexivity.
  - simpl in Hv. simpl. rewrite Hv. reflexivity.
  - destruct v; try reflexivity; try discriminate Hv.
    now destruct (Hs s).
  - reflexivity.
Qed.

(** The callback of the tool mapping never throws: the one expression that
    can, [JSON.parse], stands in a [try]. *)
Lemma schemaObject_total tool : exists schema, schemaObject tool = Ok schema.
Proof.
  unfold schemaObject.
  destruct (tool_input_schema tool) as [[| | |text| |kvs]|]; simpl; eauto.
  - destruct (JSON_parse text) as [v|e]; simpl; [|eauto].
    destruct (is_object v && has_type v); simpl; eauto.
  - destruct (existsb _ kvs); eauto.
Qed.

Lemma formatTool_total tool :
  exists schema,
    formatTool tool
    = Ok {| name := tool_name tool;
            description := tool_description tool;
            input_schema := schema |}.
Proof.
  unfold formatTool. destruct (schemaObject_total tool) as [schema ->]. eauto.
Qed.

Lemma map_formatTool_total available :
  exists formatted, map_result formatTool available = Ok formatted.
Proof.
  induction available as [|tool l [formatted IH]]; simpl; [eauto|].
  destruct (formatTool_total tool) as [schema ->]. rewrite IH. eauto.
Qed.

Lemma formatTools_total chat : exists formattedTools, formatTools chat = Ok formattedTools.
Proof.
  unfold formatTools. destruct (mcpAvailableTools chat) as [available|]; [|eauto].
  destruct (0 <? length available)%nat; [|eauto].
  destruct (map_formatTool_total available) as [formatted ->]. eauto.
Qed.

(** [sendChat] is the tool mapping, then [generateResponse], then a copy of
    its result. *)
Lemma sendChat_run vendor this chat log :
  exists formattedTools,
    formatTools chat = Ok formattedTools /\
    sendChat vendor this chat log
    = match generateResponse vendor this
              {| model := chat_model chat;
                 messages := messagesToSend chat;
                 maxTokens := or_undefined (chat_maxTokens chat);
                 budgetTokens := or_undefined (chat_budgetTokens chat);
                 systemPrompt := string_or_undefined (chat_systemPrompt chat);
                 thinkingMode := 0 <? nullish (chat_budgetTokens chat) 0;
                 tools := formattedTools |} log with
      | (Ok r, log') =>
          (Ok {| chat_role := role r; chat_content := content r; chat_usage := usage r |},
           log')
      | (Throw e, log') => (Throw e, log')
      end.
Proof.
  destruct (formatTools_total chat) as [formattedTools E].
  exists formattedTools. split; [exact E|].
  unfold sendChat, bind, lift, ret. rewrite E.
  match goal with |- context [generateResponse ?v ?t ?o ?l] =>
    destruct (generateResponse v t o l) as [[r|e] log'] end; reflexivity.
Qed.

Lemma unrecognized_block_of b :
  block_type b <> "thinking" -> block_type b <> "text" -> block_type b <> "tool_use" ->
  block_of b = [].
Proof.
  destruct b; simpl; intros H1 H2 H3; try reflexivity; congruence.
Qed.

(** C7: failures local to the mapping abort nothing. A tool whose
    [input_schema] is a string that does not parse, or parses to a value
    that is no object or has no [type] property, or is an object without a
    [type] property, is mapped to a tool with the fallback schema
    [{type: "object", properties: {}}], and the mapping of the tools of a
    chat never throws; a block of the vendor's response of a kind other than
    thinking, text and tool_use is left out of the content, the blocks
    around it are kept in order; and when [sendChat] fails, it is the
    vendor's call that failed, with that error. *)
Theorem mapping_failures_absorbed :
  (forall tool,
      malformed_schema (tool_input_schema tool) ->
      formatTool tool
      = Ok {| name := tool_name tool;
              description := tool_description tool;
              input_schema := fallbackSchema |}) /\
  (forall chat, exists formattedTools, formatTools chat = Ok formattedTools) /\
  (forall pre b post,
      block_type b <> "thinking" -> block_type b <> "text" -> block_type b <> "tool_use" ->
      mapResponseContent (pre ++ b :: post)
      = mapResponseContent pre ++ mapResponseContent post) /\
  (forall vendor this chat log e log',
      sendChat vendor this chat log = (Throw e, log') ->
      exists request, log' = log ++ [request] /\ vendor (client this) request = Throw e).
Proof.
  split; [|split; [|split]].
  - intros tool H. unfold formatTool. now rewrite (schemaObject_malformed tool H).
  - exact formatTools_total.
  - intros pre b post H1 H2 H3.
    change (b :: post) with ([b] ++ post).
    rewrite !mapResponseContent_app.
    rewrite (mapResponseContent_flat_map [b]). simpl.
    now rewrite (unrecognized_block_of b H1 H2 H3).
  - intros vendor this chat log e log' H.
    destruct (sendChat_run vendor this chat log) as (formattedTools & _ & E).
    rewrite E, generateResponse_run in H. clear E.
    match type of H with context [vendor ?c ?req] =>
      exists req; destruct (vendor c req) as [m|e'] eqn:Ev end;
      inversion H; subst; split; reflexivity.
Qed.

Lemma mapping_failures_absorbed_witness :
  JSON_parse "not json" = Throw (SyntaxError "Unexpected token in JSON") /\
  formatTool notJson
  = Ok {| name := "search";
          description := "Search the web";
          input_schema := JObj [("type", JStr "object"); ("properties", JObj [])] |} /\
  mapResponseContent
    ([AThinking "Assistant is thinking..." None]
       ++ ARedactedThinking "opaque" :: [AText "Here is the result."])
  = mapResponseContent [AThinking "Assistant is thinking..." None]
      ++ mapResponseContent [AText "Here is the result."].
Proof.
  split; [reflexivity|]. split.
  - exact (proj1 mapping_failures_absorbed notJson
             (schema_unparseable "not json" _ eq_refl)).
  - apply (proj1 (proj2 (proj2 mapping_failures_absorbed))); discriminate.
Defined.

(** Schemas read from strings: one that is taken as it is, and the ways to
    fall back. The texts are written with [JSON.stringify]. *)
Example schema_with_type_is_kept :
  schemaObject
    {| tool_name := "t"; tool_description := "";
       tool_input_schema :=
         Some (JStr (JSON_stringify
                       (JObj [("type", JStr "object");
                              ("properties", JObj [("q", JObj [("type", JStr "string")])])]))) |}
  = Ok (JObj [("type", JStr "object");
              ("properties", JObj [("q", JObj [("type", JStr "string")])])]).
Proof. vm_compute. reflexivity. Qed.

Example schema_fallbacks :
  map schemaObject
    [ {| tool_name := "number"; tool_description := "";
         tool_input_schema := Some (JStr "42") |};
      {| tool_name := "null"; tool_description := "";
         tool_input_schema := Some (JStr "null") |};
      {| tool_name := "array"; tool_description := "";
         tool_input_schema := Some (JStr "[1, 2]") |};
      {| tool_name := "untyped"; tool_description := "";
         tool_input_schema :=
           Some (JStr (JSON_stringify (JObj [("properties", JObj [])]))) |};
      {| tool_name := "object"; tool_description := "";
         tool_input_schema := Some (JObj [("properties", JObj [])]) |};
      {| tool_name := "truncated"; tool_description := "";
         tool_input_schema := Some (JStr "{") |};
      {| tool_name := "absent"; tool_description := "";
         tool_input_schema := None |} ]
  = repeat (Ok fallbackSchema) 7.
Proof. vm_compute. reflexivity. Qed.

(** ** [sendChat] *)

Lemma messagesToSend_spec chat :
  messagesToSend chat
  = responseHistory chat
      ++ (if String.eqb (prompt chat) "" then [] else [promptMessage chat]).
Proof.
  unfold messagesToSend, truthy_string.
  destruct (String.eqb (prompt chat) ""); simpl; [now rewrite app_nil_r|reflexivity].
Qed.

(** C5: [sendChat] calls [generateResponse] once, on options whose messages
    are the history followed by the prompt as one user message of one text
    block (no such message for an empty prompt), whose [thinkingMode] says
    whether [budgetTokens] is greater than 0 (a budget of 500 is passed on
    with thinking on, no budget is passed with thinking off when there is
    none), and returns the role, the content and the usage of its response
    (or its failure) as they are. *)
Theorem sendChat_delegates vendor (this : AnthropicAdapter) (chat : Chat) (log : Log) :
  exists options,
    model options = chat_model chat /\
    messages options
    = responseHistory chat
        ++ (if String.eqb (prompt chat) "" then [] else [promptMessage chat]) /\
    (thinkingMode options = true <->
     exists n, chat_budgetTokens chat = Some n /\ 0 < n) /\
    (chat_budgetTokens chat = Some 500 ->
     thinkingMode options = true /\ budgetTokens options = Some 500) /\
    (chat_budgetTokens chat = None ->
     thinkingMode options = false /\ budgetTokens options = None) /\
    sendChat vendor this chat log
    = match generateResponse vendor this options log with
      | (Ok r, log') =>
          (Ok {| chat_role := role r; chat_content := content r; chat_usage := usage r |},
           log')
      | (Throw e, log') => (Throw e, log')
      end.
Proof.
  destruct (sendChat_run vendor this chat log) as (formattedTools & _ & E).
  exists {| model := chat_model chat;
            messages := messagesToSend chat;
            maxTokens := or_undefined (chat_maxTokens chat);
            budgetTokens := or_undefined (chat_budgetTokens chat);
            systemPrompt := string_or_undefined (chat_systemPrompt chat);
            thinkingMode := 0 <? nullish (chat_budgetTokens chat) 0;
            tools := formattedTools |}.
  simpl. split; [reflexivity|]. split; [apply messagesToSend_spec|].
  split; [|split; [|split; [|exact E]]].
  - split.
    + destruct (chat_budgetTokens chat) as [n|]; simpl; [|discriminate].
      intros H. exists n. split; [reflexivity|]. now apply Z.ltb_lt.
    + intros (n & -> & Hn). simpl. now apply Z.ltb_lt.
  - intros ->. split; reflexivity.
  - intros ->. split; reflexivity.
Qed.

Lemma sendChat_delegates_witness :
  chat_budgetTokens chatWithThinking = Some 500 /\
  exists options,
    messages options = [promptMessage chatWithThinking] /\
    thinkingMode options = true /\
    budgetTokens options = Some 500 /\
    sendChat (replying hello) opusAdapter chatWithThinking []
    = match generateResponse (replying hello) opusAdapter options [] with
      | (Ok r, log') =>
          (Ok {| chat_role := role r; chat_content := content r; chat_usage := usage r |},
           log')
      | (Throw e, log') => (Throw e, log')
      end.
Proof.
  split; [reflexivity|].
  destruct (sendChat_delegates (replying hello) opusAdapter chatWithThinking [])
    as (options & _ & Hm & _ & H500 & _ & E).
  exists options. split; [exact Hm|].
  split; [exact (proj1 (H500 eq_refl))|].
  split; [exact (proj2 (H500 eq_refl))|exact E].
Defined.

Example sendChat_thinking_disabled :
  sendChat (replying hello) opusAdapter chatWithHistory []
  = (Ok {| chat_role := "assistant";
           chat_content := [TextBlock "Hi there!"];
           chat_usage := computeUsage opusAdapter hello |},
     [{| req_model := "claude-3-opus-20240229";
         req_messages :=
           [{| param_role := user;
               param_content := ParamBlocks [TextParam "Previous question"] |};
            {| param_role := assistant;
               param_content := ParamBlocks [TextParam "Previous answer"] |};
            {| param_role := user;
               param_content := ParamBlocks [TextParam "Current question"] |}];
         system := Some "System prompt";
         max_tokens := 100;
         thinking := None;
         req_tools := None |}]).
Proof. reflexivity. Qed.

Example sendChat_thinking_enabled :
  snd (sendChat (replying hello) opusAdapter chatWithThinking [])
  = [{| req_model := "claude-3-opus-20240229";
        req_messages :=
          [{| param_role := user;
              param_content := ParamBlocks [TextParam "Think about this"] |}];
        system := Some "System prompt";
        max_tokens := 100;
        thinking := Some {| budget_tokens := 500 |};
        req_tools := None |}].
Proof. reflexivity. Qed.

(** * Further properties of the adapter *)

(** ** The outbound mapping *)

Lemma flat_map_param_of_length blocks :
  length (flat_map param_of (filter supported blocks))
  = length (filter supported blocks).
Proof.
  induction blocks as [|b l IH]; simpl; [reflexivity|].
  destruct b; simpl; auto.
Qed.

Lemma filter_supported_sent blocks :
  filter supported blocks <> [] ->
  flat_map param_of (filter supported blocks) <> [].
Proof.
  intros H E. apply (f_equal (@length _)) in E.
  rewrite flat_map_param_of_length in E.
  destruct (filter supported blocks); [contradiction|discriminate].
Qed.

Lemma filter_supported_without pre b post :
  supported b = false ->
  filter supported (pre ++ b :: post) = filter supported (pre ++ post).
Proof.
  intros Hb. rewrite !filter_app. simpl. now rewrite Hb.
Qed.

(** What is sent for a message with a text or thinking block. *)
Lemma formatMessage_supported msg blocks :
  msg_content msg = ContentBlocks blocks ->
  filter supported blocks <> [] ->
  formatMessage msg
  = {| param_role := if String.eqb (msg_role msg) "assistant" then assistant else user;
       param_content := ParamBlocks (flat_map param_of (filter supported blocks)) |}.
Proof.
  intros Hc Hne. apply filter_supported_sent in Hne.
  unfold formatMessage. rewrite Hc, mapContent_filter.
  destruct (flat_map param_of (filter supported blocks)); [contradiction|reflexivity].
Qed.

(** X1: a message with at least one text or thinking block is sent as its
    text and thinking blocks, one wire block for each, in their order, and a
    block of another kind, wherever it stands, changes nothing of the
    message that is sent. A message with no text or thinking block is not
    sent as blocks: it is sent as the JSON text of its whole content. *)
Theorem outbound_keeps_supported_in_order (msg : Message) (blocks : list ContentBlock) :
  msg_content msg = ContentBlocks blocks ->
  (filter supported blocks <> [] ->
   param_content (formatMessage msg)
   = ParamBlocks (flat_map param_of (filter supported blocks)) /\
   length (flat_map param_of (filter supported blocks))
   = length (filter supported blocks) /\
   forall pre b post,
     blocks = pre ++ b :: post ->
     supported b = false ->
     formatMessage {| msg_role := msg_role msg;
                      msg_content := ContentBlocks (pre ++ post) |}
     = formatMessage msg) /\
  (filter supported blocks = [] ->
   param_content (formatMessage msg)
   = ParamString (JSON_stringify (JArr (map ContentBlock_json blocks)))).
Proof.
  intros Hc. split.
  - intros Hne. split; [|split].
    + rewrite (formatMessage_supported msg blocks Hc Hne). reflexivity.
    + apply flat_map_param_of_length.
    + intros pre b post E Hb.
      rewrite (formatMessage_supported msg blocks Hc Hne).
      rewrite (formatMessage_supported
                 {| msg_role := msg_role msg;
                    msg_content := ContentBlocks (pre ++ post) |}
                 (pre ++ post) eq_refl).
      * simpl. rewrite E, (filter_supported_without pre b post Hb). reflexivity.
      * rewrite <- (filter_supported_without pre b post Hb), <- E. exact Hne.
  - intros He. unfold formatMessage. rewrite Hc, mapContent_filter, He. reflexivity.
Qed.

Lemma outbound_keeps_supported_in_order_witness :
  (filter supported
     [ThinkingBlock "Let me think..." "test-sig";
      ImageBlock "http://example.com/image.png";
      TextBlock "Hello Claude!"] <> [] /\
   supported (ImageBlock "http://example.com/image.png") = false /\
   formatMessage
     {| msg_role := "user";
        msg_content := ContentBlocks ([ThinkingBlock "Let me think..." "test-sig"]
                                        ++ [TextBlock "Hello Claude!"]) |}
   = formatMessage
       {| msg_role := "user";
          msg_content := ContentBlocks [ThinkingBlock "Let me think..." "test-sig";
                                        ImageBlock "http://example.com/image.png";
                                        TextBlock "Hello Claude!"] |}) /\
  (filter supported imageBlocks = [] /\
   param_content (formatMessage imageOnly)
   = ParamString (JSON_stringify (JArr (map ContentBlock_json imageBlocks)))).
Proof.
  assert (Hne : filter supported
                  [ThinkingBlock "Let me think..." "test-sig";
                   ImageBlock "http://example.com/image.png";
                   TextBlock "Hello Claude!"] <> []) by discriminate.
  split.
  - split; [exact Hne|]. split; [reflexivity|].
    exact (proj2 (proj2 (proj1 (outbound_keeps_supported_in_order
                                  {| msg_role := "user";
                                     msg_content :=
                                       ContentBlocks
                                         [ThinkingBlock "Let me think..." "test-sig";
                                          ImageBlock "http://example.com/image.png";
                                          TextBlock "Hello Claude!"] |}
                                  _ eq_refl) Hne))
             [ThinkingBlock "Let me think..." "test-sig"]
             (ImageBlock "http://example.com/image.png")
             [TextBlock "Hello Claude!"] eq_refl eq_refl).
  - split; [reflexivity|].
    exact (proj2 (outbound_keeps_supported_in_order imageOnly imageBlocks eq_refl) eq_refl).
Defined.

(** ** The inbound mapping *)

Lemma block_of_emitted b : forallb emitted (block_of b) = true.
Proof. destruct b; reflexivity. Qed.

Lemma flat_map_block_of_emitted blocks :
  forallb emitted (flat_map block_of blocks) = true.
Proof.
  induction blocks as [|b l IH]; simpl; [reflexivity|].
  rewrite forallb_app, block_of_emitted, IH. reflexivity.
Qed.

Lemma flat_map_block_of_length blocks :
  length (flat_map block_of blocks) = length (filter recognized blocks).
Proof.
  induction blocks as [|b l IH]; simpl; [reflexivity|].
  destruct b; simpl; auto.
Qed.

(** X2: the content of a response holds text, thinking and tool_use blocks
    only, one for each block of the vendor's response of such a kind; and a
    tool_use block in it comes from a tool_use block of the vendor with the
    same name, its input being the JSON text of the vendor's input. *)
Theorem response_content_kinds vendor (this : AnthropicAdapter)
    (options : AIRequestOptions) (log log' : Log) (r : AIResponse) :
  generateResponse vendor this options log = (Ok r, log') ->
  exists response,
    vendor (client this) (createParams this options) = Ok response /\
    forallb emitted (content r) = true /\
    length (content r) = length (filter recognized (vendor_content response)) /\
    (forall name input,
        In (ToolUseBlock name input) (content r) ->
        exists id j,
          In (AToolUse id name j) (vendor_content response) /\
          input = JSON_stringify j).
Proof.
  intros H. apply generateResponse_inv in H as (response & Hv & Hc & _).
  exists response. split; [exact Hv|]. rewrite Hc, mapResponseContent_flat_map.
  split; [apply flat_map_block_of_emitted|].
  split; [apply flat_map_block_of_length|].
  intros name input Hin. apply in_flat_map in Hin as (b & Hb & Hin).
  destruct b; simpl in Hin; try contradiction;
    destruct Hin as [Hin|[]]; try discriminate Hin.
  injection Hin as <- <-. eauto.
Qed.

Lemma response_content_kinds_witness :
  generateResponse (replying toolReply) opusAdapter (basicOptions []) []
  = (Ok toolResponse, [createParams opusAdapter (basicOptions [])]) /\
  exists response,
    replying toolReply (client opusAdapter) (createParams opusAdapter (basicOptions []))
    = Ok response /\
    forallb emitted (content toolResponse) = true /\
    length (content toolResponse) = length (filter recognized (vendor_content response)) /\
    (forall name input,
        In (ToolUseBlock name input) (content toolResponse) ->
        exists id j,
          In (AToolUse id name j) (vendor_content response) /\
          input = JSON_stringify j).
Proof.
  assert (run :
    generateResponse (replying toolReply) opusAdapter (basicOptions []) []
    = (Ok toolResponse, [createParams opusAdapter (basicOptions [])]))
    by reflexivity.
  split; [exact run|].
  exact (response_content_kinds _ _ _ _ _ _ run).
Defined.

Lemma roundtrip_filter blocks :
  roundtrip blocks = map resign (filter supported blocks).
Proof.
  unfold roundtrip.
  rewrite mapContent_flat_map, mapResponseContent_flat_map.
  induction blocks as [|b l IH]; simpl; [reflexivity|].
  rewrite map_app, flat_map_app, IH.
  destruct b; reflexivity.
Qed.

Lemma resign_block_of b : map resign (block_of b) = block_of b.
Proof. destruct b; reflexivity. Qed.

Lemma map_resign_inbound blocks :
  map resign (filter supported (flat_map block_of blocks))
  = filter supported (flat_map block_of blocks).
Proof.
  induction blocks as [|b l IH]; simpl; [reflexivity|].
  rewrite filter_app, map_app, IH. f_equal.
  destruct b; reflexivity.
Qed.

Lemma unsupported_inbound_tool_use blocks :
  filter supported (flat_map block_of blocks) = [] ->
  Forall (fun b => exists name input, b = ToolUseBlock name input)
         (flat_map block_of blocks).
Proof.
  induction blocks as [|b l IH]; simpl; [constructor|].
  rewrite filter_app. intros H. apply app_eq_nil in H as [Hb Hl].
  apply Forall_app. split; [|exact (IH Hl)].
  destruct b; simpl in *; try discriminate Hb; repeat constructor; eauto.
Qed.

Lemma inbound_without_tool_use blocks :
  (forall id name input, ~ In (AToolUse id name input) blocks) ->
  filter supported (flat_map block_of blocks) = flat_map block_of blocks.
Proof.
  intros Hno. induction blocks as [|b l IH]; simpl; [reflexivity|].
  rewrite filter_app, IH.
  - f_equal. destruct b; try reflexivity.
    exfalso. eapply Hno. left. reflexivity.
  - intros id name input Hin. eapply Hno. right. exact Hin.
Qed.

(** X3: content the adapter returned, given back as a message of the
    history. When it has a text or thinking block, the message is sent as
    those blocks and the tool_use blocks are not sent, so a vendor that hands
    the blocks of the request back gives the content without its tool_use
    blocks, and the very content when the vendor had sent no tool_use block.
    When it has no text or thinking block, it is made of tool_use blocks only
    (or is empty) and is sent as the JSON text of the whole content. *)
Theorem emitted_content_sent_back (msg : Message) (blocks : list AnthropicContentBlock) :
  msg_content msg = ContentBlocks (mapResponseContent blocks) ->
  (filter supported (mapResponseContent blocks) <> [] ->
   exists params,
     param_content (formatMessage msg) = ParamBlocks params /\
     params = flat_map param_of (filter supported (mapResponseContent blocks)) /\
     mapResponseContent (map echo params)
     = filter supported (mapResponseContent blocks) /\
     ((forall id name input, ~ In (AToolUse id name input) blocks) ->
      mapResponseContent (map echo params) = mapResponseContent blocks)) /\
  (filter supported (mapResponseContent blocks) = [] ->
   param_content (formatMessage msg)
   = ParamString (JSON_stringify
                    (JArr (map ContentBlock_json (mapResponseContent blocks)))) /\
   Forall (fun b => exists name input, b = ToolUseBlock name input)
          (mapResponseContent blocks)).
Proof.
  intros Hc. split.
  - intros Hne.
    exists (flat_map param_of (filter supported (mapResponseContent blocks))).
    split; [|split; [reflexivity|]].
    + rewrite (formatMessage_supported msg _ Hc Hne). reflexivity.
    + assert (E : mapResponseContent
                    (map echo (flat_map param_of
                                 (filter supported (mapResponseContent blocks))))
                  = filter supported (mapResponseContent blocks)).
      { rewrite <- mapContent_filter.
        change (roundtrip (mapResponseContent blocks)
                = filter supported (mapResponseContent blocks)).
        rewrite roundtrip_filter, mapResponseContent_flat_map.
        apply map_resign_inbound. }
      split; [exact E|].
      intros Hno. rewrite E, mapResponseContent_flat_map.
      apply inbound_without_tool_use, Hno.
  - intros He. split.
    + unfold formatMessage. rewrite Hc, mapContent_filter, He. reflexivity.
    + rewrite mapResponseContent_flat_map in *.
      apply unsupported_inbound_tool_use, He.
Qed.

Lemma emitted_content_sent_back_witness :
  (filter supported (mapResponseContent (vendor_content toolReply)) <> [] /\
   exists params,
     param_content
       (formatMessage (assistantMessage (mapResponseContent (vendor_content toolReply))))
     = ParamBlocks params /\
     params = [TextParam "Let me check."] /\
     mapResponseContent (map echo params) = [TextBlock "Let me check."]) /\
  (filter supported (mapResponseContent (vendor_content toolOnlyReply)) = [] /\
   param_content
     (formatMessage (assistantMessage (mapResponseContent (vendor_content toolOnlyReply))))
   = ParamString
       (JSON_stringify
          (JArr [JObj [("type", JStr "tool_use");
                       ("name", JStr "get_weather");
                       ("input", JStr (JSON_stringify (JObj [("city", JStr "Paris")])))]]))).
Proof.
  assert (Hne : filter supported (mapResponseContent (vendor_content toolReply)) <> [])
    by discriminate.
  split.
  - split; [exact Hne|].
    destruct (proj1 (emitted_content_sent_back
                       (assistantMessage (mapResponseContent (vendor_content toolReply)))
                       (vendor_content toolReply) eq_refl) Hne)
      as (params & Hsent & Hp & Hback & _).
    exists params. split; [exact Hsent|]. split; [exact Hp|exact Hback].
  - split; [reflexivity|].
    exact (proj1 (proj2 (emitted_content_sent_back
                           (assistantMessage
                              (mapResponseContent (vendor_content toolOnlyReply)))
                           (vendor_content toolOnlyReply) eq_refl) eq_refl)).
Defined.

(** ** One run of [sendChat] *)

(** [sendChat] against the vendor: one request, and the outcome of the
    vendor's call, mapped or passed on. *)
Lemma sendChat_vendor vendor this chat log :
  exists formattedTools,
    formatTools chat = Ok formattedTools /\
    sendChat vendor this chat log
    = (match vendor (client this) (createParams this (chatOptions chat formattedTools)) with
       | Ok response =>
           Ok {| chat_role := "assistant";
                 chat_content := mapResponseContent (vendor_content response);
                 chat_usage := computeUsage this response |}
       | Throw e => Throw e
       end,
       log ++ [createParams this (chatOptions chat formattedTools)]).
Proof.
  destruct (sendChat_run vendor this chat log) as (formattedTools & Ht & E).
  exists formattedTools. split; [exact Ht|].
  rewrite E. fold (chatOptions chat formattedTools).
  rewrite generateResponse_run.
  destruct (vendor (client this) (createParams this (chatOptions chat formattedTools)));
    reflexivity.
Qed.

(** X4: [sendChat] calls the vendor exactly once, whatever the outcome. The
    request names the model of the chat and carries the history, message by
    message in order, followed by the prompt as one user message of one text
    block; an empty prompt adds no message, so a chat with no history and no
    prompt sends no message at all. An empty system prompt is left out. *)
Theorem sendChat_request vendor (this : AnthropicAdapter) (chat : Chat) (log : Log) :
  exists request,
    snd (sendChat vendor this chat log) = log ++ [request] /\
    req_model request = chat_model chat /\
    req_messages request
    = map formatMessage (responseHistory chat)
        ++ (if String.eqb (prompt chat) "" then [] else [promptParam chat]) /\
    system request
    = match chat_systemPrompt chat with
      | Some text => if String.eqb text "" then None else Some text
      | None => None
      end /\
    (req_messages request = [] <-> responseHistory chat = [] /\ prompt chat = "").
Proof.
  destruct (sendChat_vendor vendor this chat log) as (formattedTools & _ & E).
  exists (createParams this (chatOptions chat formattedTools)).
  rewrite E. simpl. split; [reflexivity|]. split; [reflexivity|].
  assert (Hm : map formatMessage (messagesToSend chat)
               = map formatMessage (responseHistory chat)
                   ++ (if String.eqb (prompt chat) "" then [] else [promptParam chat])).
  { rewrite messagesToSend_spec, map_app.
    destruct (String.eqb (prompt chat) ""); reflexivity. }
  rewrite Hm. split; [reflexivity|]. split.
  - unfold string_or_undefined, truthy_string.
    destruct (chat_systemPrompt chat) as [text|]; [|reflexivity].
    destruct (String.eqb text ""); reflexivity.
  - split.
    + intros H. apply app_eq_nil in H as [Hh Hp].
      apply map_eq_nil in Hh. split; [exact Hh|].
      destruct (String.eqb_spec (prompt chat) ""); [assumption|discriminate Hp].
    + intros [-> ->]. reflexivity.
Qed.

(** X5: the request of [sendChat] asks for [chat.maxTokens] tokens, or for
    1024 when that is unset or zero; it enables thinking exactly when the
    budget of the chat is greater than 0 and the adapter is thinking-capable,
    and the budget it then sends is the budget of the chat as it is: the half
    of [max_tokens] is never sent on this path, and the budget is not
    compared with [max_tokens]. *)
Theorem sendChat_thinking_budget vendor (this : AnthropicAdapter) (chat : Chat)
    (log : Log) :
  exists request,
    snd (sendChat vendor this chat log) = log ++ [request] /\
    max_tokens request
    = match chat_maxTokens chat with
      | Some m => if m =? 0 then 1024 else m
      | None => 1024
      end /\
    thinking request
    = match chat_budgetTokens chat with
      | Some b =>
          if (0 <? b) && isThinkingCapable this then Some {| budget_tokens := b |}
          else None
      | None => None
      end.
Proof.
  destruct (sendChat_vendor vendor this chat log) as (formattedTools & _ & E).
  exists (createParams this (chatOptions chat formattedTools)).
  rewrite E. simpl. split; [reflexivity|]. split.
  - unfold or_undefined, or_number, truthy_number.
    destruct (chat_maxTokens chat) as [m|]; [|reflexivity].
    destruct (Z.eqb_spec m 0) as [->|Hm]; simpl; [reflexivity|].
    destruct (Z.eqb_spec m 0); [contradiction|reflexivity].
  - destruct (chat_budgetTokens chat) as [b|]; simpl; [|reflexivity].
    destruct (Z.ltb_spec 0 b) as [Hb|Hb]; simpl; [|reflexivity].
    destruct (isThinkingCapable this); simpl; [|reflexivity].
    unfold or_undefined, or_number, truthy_number.
    destruct (Z.eqb_spec b 0) as [->|Hn]; [lia|]. simpl.
    destruct (Z.eqb_spec b 0); [contradiction|reflexivity].
Qed.

(** X6: [sendChat] succeeds exactly when the vendor's call does. Its result
    then has the role ["assistant"], the mapped content and the computed
    usage of the vendor's response; a failure of the vendor is the failure of
    [sendChat], with the same error. *)
Theorem sendChat_outcome vendor (this : AnthropicAdapter) (chat : Chat) (log : Log) :
  exists request,
    snd (sendChat vendor this chat log) = log ++ [request] /\
    fst (sendChat vendor this chat log)
    = match vendor (client this) request with
      | Ok response =>
          Ok {| chat_role := "assistant";
                chat_content := mapResponseContent (vendor_content response);
                chat_usage := computeUsage this response |}
      | Throw e => Throw e
      end.
Proof.
  destruct (sendChat_vendor vendor this chat log) as (formattedTools & _ & E).
  exists (createParams this (chatOptions chat formattedTools)).
  rewrite E. split; reflexivity.
Qed.

(** On a chat with a budget of 500, a [maxTokens] of 0, an empty system
    prompt and two tools. *)
Lemma sendChat_request_witness :
  exists request,
    snd (sendChat (replying hello) opusAdapter chatWithTools []) = [] ++ [request] /\
    req_model request = "claude-3-opus-20240229" /\
    req_messages request = [promptParam chatWithTools] /\
    system request = None.
Proof.
  destruct (sendChat_request (replying hello) opusAdapter chatWithTools [])
    as (request & Hl & Hm & Hs & Hy & _).
  exists request. split; [exact Hl|]. split; [exact Hm|]. split; [exact Hs|exact Hy].
Defined.

Lemma sendChat_thinking_budget_witness :
  exists request,
    snd (sendChat (replying hello) opusAdapter chatWithTools []) = [] ++ [request] /\
    max_tokens request = 1024 /\
    thinking request = Some {| budget_tokens := 500 |}.
Proof.
  destruct (sendChat_thinking_budget (replying hello) opusAdapter chatWithTools [])
    as (request & Hl & Hm & Ht).
  exists request. split; [exact Hl|]. split; [exact Hm|exact Ht].
Defined.

Lemma sendChat_outcome_witness :
  fst (sendChat (replying hello) opusAdapter chatWithTools [])
  = Ok {| chat_role := "assistant";
          chat_content := [TextBlock "Hi there!"];
          chat_usage := computeUsage opusAdapter hello |}.
Proof.
  destruct (sendChat_outcome (replying hello) opusAdapter chatWithTools [])
    as (request & _ & Hf).
  exact Hf.
Defined.

(** ** The tools of a chat *)

(** A schema the vendor can take: an object with a [type] property. *)
Lemma schemaObject_valid tool schema :
  schemaObject tool = Ok schema ->
  is_object schema = true /\ has_type schema = true.
Proof.
  unfold schemaObject.
  destruct (tool_input_schema tool) as [[| | |text|xs|kvs]|]; simpl;
    try (intros [= <-]; split; reflexivity).
  - destruct (JSON_parse text) as [v|e]; simpl; [|intros [= <-]; split; reflexivity].
    destruct (is_object v && has_type v) eqn:E; simpl; intros [= <-].
    + apply andb_true_iff in E. exact E.
    + split; reflexivity.
  - destruct (existsb _ kvs) eqn:E; intros [= <-]; split; try reflexivity. exact E.
Qed.

Lemma map_formatTool_shape available formatted :
  map_result formatTool available = Ok formatted ->
  map name formatted = map tool_name available /\
  map description formatted = map tool_description available /\
  Forall (fun t => is_object (input_schema t) = true /\ has_type (input_schema t) = true)
         formatted.
Proof.
  revert formatted. induction available as [|tool l IH]; simpl; intros formatted H.
  - injection H as <-. repeat split; constructor.
  - unfold formatTool in H at 1.
    destruct (schemaObject tool) as [schema|e] eqn:Es; [|discriminate].
    destruct (map_result formatTool l) as [rest|e]; [|discriminate].
    injection H as <-. destruct (IH rest eq_refl) as (Hn & Hd & Hs).
    simpl. rewrite Hn, Hd. repeat split.
    constructor; [|exact Hs]. simpl. exact (schemaObject_valid tool schema Es).
Qed.

(** X7: the tools of a chat are sent only when there is one; then there is
    one tool in the request for each tool of the chat, in order, with its
    name and its description, and the schema of each is an object with a
    [type] property, whatever the caller supplied. *)
Theorem formatTools_shape (chat : Chat) :
  match mcpAvailableTools chat with
  | None | Some [] => formatTools chat = Ok None
  | Some available =>
      exists formatted,
        formatTools chat = Ok (Some formatted) /\
        map name formatted = map tool_name available /\
        map description formatted = map tool_description available /\
        Forall (fun t => is_object (input_schema t) = true
                         /\ has_type (input_schema t) = true) formatted
  end.
Proof.
  unfold formatTools.
  destruct (mcpAvailableTools chat) as [[|tool l]|]; [reflexivity| |reflexivity].
  change (0 <? length (tool :: l))%nat with true. cbv iota.
  destruct (map_formatTool_total (tool :: l)) as [formatted E].
  rewrite E. exists formatted. split; [reflexivity|].
  exact (map_formatTool_shape (tool :: l) formatted E).
Qed.

(** X8: a tool is mapped with the schema it supplies exactly when that
    schema is an object with a [type] property, given as such or as a string
    that parses to it; in every other case, and only then, the schema is the
    fallback. *)
Theorem schemaObject_cases (tool : MCPTool) :
  (exists v,
      supplied_schema tool v /\
      is_object v = true /\ has_type v = true /\
      schemaObject tool = Ok v)
  \/ ((forall v, supplied_schema tool v -> is_object v && has_type v = false)
      /\ schemaObject tool = Ok fallbackSchema).
Proof.
  unfold schemaObject, supplied_schema.
  destruct (tool_input_schema tool) as [[|b|m e|text|xs|kvs]|] eqn:Et;
    try (right; split; [|reflexivity];
         intros v [[= <-]|(text' & [=] & _)]; reflexivity).
  - destruct (JSON_parse text) as [v|e] eqn:Ep; simpl.
    + destruct (is_object v && has_type v) eqn:E; simpl.
      * left. exists v. apply andb_true_iff in E as [Eo Eh].
        repeat split; try assumption. right. exists text. split; [reflexivity|exact Ep].
      * right. split; [|reflexivity].
        intros w [[= <-]|(text' & [= <-] & Hp)]; [reflexivity|].
        rewrite Ep in Hp. injection Hp as <-. exact E.
    + right. split; [|reflexivity].
      intros w [[= <-]|(text' & [= <-] & Hp)]; [reflexivity|].
      rewrite Ep in Hp. discriminate Hp.
  - simpl. destruct (existsb _ kvs) eqn:Eh.
    + left. exists (JObj kvs). repeat split; try assumption. now left.
    + right. split; [|reflexivity].
      intros v [[= <-]|(text' & [=] & _)]. simpl. exact Eh.
Qed.

Lemma schemaObject_cases_witness :
  (exists v,
      supplied_schema searchToolText v /\
      is_object v = true /\ has_type v = true /\
      schemaObject searchToolText = Ok v) /\
  schemaObject searchToolText = Ok searchSchema /\
  schemaObject notJson = Ok fallbackSchema.
Proof.
  split; [|split; vm_compute; reflexivity].
  destruct (schemaObject_cases searchToolText) as [H|[_ H]]; [exact H|].
  exfalso. vm_compute in H. discriminate H.
Defined.

Lemma formatTools_shape_witness :
  mcpAvailableTools chatWithTools = Some [searchTool; notJson] /\
  exists formatted,
    formatTools chatWithTools = Ok (Some formatted) /\
    map name formatted = map tool_name [searchTool; notJson] /\
    map description formatted = map tool_description [searchTool; notJson] /\
    Forall (fun t => is_object (input_schema t) = true
                     /\ has_type (input_schema t) = true) formatted.
Proof.
  split; [reflexivity|]. exact (formatTools_shape chatWithTools).
Defined.

(** ** The adapter a configuration gives *)

(** X9: an adapter built by the constructor holds both costs or neither;
    when it holds them they are the configured ones and both are truthy
    (numbers other than zero); and a response of such an adapter has a usage
    exactly when the vendor reports two token counts that are not zero and
    the configuration sets two costs that are truthy. *)
Theorem constructor_costs (config : VendorConfig) (modelConfig : ModelConfig) :
  (inputTokenCost (new_AnthropicAdapter config modelConfig) = None <->
   outputTokenCost (new_AnthropicAdapter config modelConfig) = None) /\
  (forall ic,
      inputTokenCost (new_AnthropicAdapter config modelConfig) = Some ic ->
      cfg_inputTokenCost modelConfig = Some ic /\ truthy_double ic = true) /\
  (forall oc,
      outputTokenCost (new_AnthropicAdapter config modelConfig) = Some oc ->
      cfg_outputTokenCost modelConfig = Some oc /\ truthy_double oc = true) /\
  (forall response,
      computeUsage (new_AnthropicAdapter config modelConfig) response <> None <->
      exists i o ic oc,
        input_tokens (vendor_usage response) = Some i /\ i <> 0 /\
        output_tokens (vendor_usage response) = Some o /\ o <> 0 /\
        cfg_inputTokenCost modelConfig = Some ic /\ truthy_double ic = true /\
        cfg_outputTokenCost modelConfig = Some oc /\ truthy_double oc = true).
Proof.
  unfold new_AnthropicAdapter. simpl.
  destruct (truthy_cost (cfg_inputTokenCost modelConfig)) eqn:Ei;
    destruct (truthy_cost (cfg_outputTokenCost modelConfig)) eqn:Eo; simpl.
  2-4: (split; [split; reflexivity|]; split; [discriminate|]; split; [discriminate|];
        intros response; split;
        [intros H; exfalso; apply H; apply computeUsage_none; simpl;
         now rewrite andb_false_r
        |intros (i & o & ic & oc & _ & _ & _ & _ & Eic & Nic & Eoc & Noc);
         assert (Ti : truthy_cost (cfg_inputTokenCost modelConfig) = true)
           by (apply truthy_cost_spec; eauto);
         assert (To : truthy_cost (cfg_outputTokenCost modelConfig) = true)
           by (apply truthy_cost_spec; eauto);
         congruence]).
  apply truthy_cost_spec in Ei as (ic & Eic & Nic).
  apply truthy_cost_spec in Eo as (oc & Eoc & Noc).
  rewrite Eic, Eoc. split; [split; discriminate|].
  split; [intros ? [= <-]; now split|].
  split; [intros ? [= <-]; now split|].
  intros response. split.
  - intros H.
    destruct (computeUsage _ response) as [u|] eqn:E; [|contradiction].
    apply computeUsage_some in E
      as (i & o & ic' & oc' & Hi & Ni & Ho & No & Hic & _ & Hoc & _ & _).
    simpl in Hic, Hoc. injection Hic as <-. injection Hoc as <-.
    exists i, o, ic, oc. repeat split; assumption.
  - intros (i & o & ic' & oc' & Hi & Ni & Ho & No & Hic & _ & Hoc & _) HU.
    injection Hic as <-. injection Hoc as <-.
    apply computeUsage_none in HU. simpl in HU.
    unfold truthy_number in HU. rewrite Hi, Ho in HU.
    apply Z.eqb_neq in Ni, No. rewrite Ni, No in HU. cbn [negb andb] in HU.
    unfold truthy_cost in HU. rewrite Nic, Noc in HU. discriminate HU.
Qed.

Lemma constructor_costs_witness :
  inputTokenCost (new_AnthropicAdapter mockConfig mockClaude3Opus)
  = Some (15 / 1000000)%float /\
  cfg_inputTokenCost mockClaude3Opus = Some (15 / 1000000)%float /\
  truthy_double (15 / 1000000) = true /\
  (inputTokenCost (new_AnthropicAdapter mockConfig inputOnly) = None <->
   outputTokenCost (new_AnthropicAdapter mockConfig inputOnly) = None).
Proof.
  split; [reflexivity|].
  split; [exact (proj1 (proj1 (proj2 (constructor_costs mockConfig mockClaude3Opus))
                          (15 / 1000000)%float eq_refl))|].
  split; [exact (proj2 (proj1 (proj2 (constructor_costs mockConfig mockClaude3Opus))
                          (15 / 1000000)%float eq_refl))|].
  exact (proj1 (constructor_costs mockConfig inputOnly)).
Defined.

(** ** Messages with nothing in them *)

(** X10: the one message that is sent with nothing in it is a message whose
    content is the empty string, which is passed on as it is; a message whose
    content is a sequence of blocks, even an empty one, is never sent
    empty. *)
Theorem empty_payload_from_empty_string (msg : Message) :
  empty_payload (param_content (formatMessage msg)) = true <->
  msg_content msg = ContentString "".
Proof.
  destruct (msg_content msg) as [s|blocks] eqn:E.
  - unfold formatMessage. rewrite E. simpl. rewrite String.eqb_eq.
    split; [now intros ->|now intros [= ->]].
  - split; [|discriminate]. intros H. exfalso.
    pose proof (formatMessage_nonempty msg blocks E) as Hne.
    destruct (param_content (formatMessage msg)) as [s|[|p ps]]; simpl in H.
    + apply String.eqb_eq in H. contradiction.
    + now apply Hne.
    + discriminate H.
Qed.

(** ** What [JSON.stringify] writes, [JSON.parse] reads back *)

Local Open Scope string_scope.

Lemma sapp_assoc (a b c : string) : (a ++ b) ++ c = a ++ (b ++ c).
Proof. induction a as [|x a IH]; simpl; [reflexivity|now rewrite IH]. Qed.

Lemma sapp_nil_r (a : string) : a ++ "" = a.
Proof. induction a as [|x a IH]; simpl; [reflexivity|now rewrite IH]. Qed.

Lemma json_induction (P : json -> Prop) :
  P JNull ->
  (forall b, P (JBool b)) ->
  (forall m e, P (JNum m e)) ->
  (forall s, P (JStr s)) ->
  (forall xs, Forall P xs -> P (JArr xs)) ->
  (forall kvs, Forall (fun kv => P (snd kv)) kvs -> P (JObj kvs)) ->
  forall j, P j.
Proof.
  intros Hnull Hbool Hnum Hstr Harr Hobj.
  fix IH 1. intros [|b|m e|s|xs|kvs].
  - exact Hnull.
  - apply Hbool.
  - apply Hnum.
  - apply Hstr.
  - apply Harr. induction xs as [|x xs IHxs]; constructor; [apply IH|exact IHxs].
  - apply Hobj. induction kvs as [|[k v] kvs IHkvs]; constructor; [apply IH|exact IHkvs].
Qed.

Lemma parse_escape_char (c : ascii) (t : string) (acc : list ascii) :
  parse_chars (escape_char c ++ t) acc = parse_chars t (c :: acc).
Proof.
  destruct c as [[] [] [] [] [] [] [] []]; reflexivity.
Qed.

Lemma parse_escape (s rest : string) (acc : list ascii) :
  parse_chars (escape s ++ String quote rest) acc
  = Some (string_of_list_ascii (rev acc ++ list_ascii_of_string s), rest).
Proof.
  revert acc. induction s as [|c s IH]; intros acc; simpl.
  - rewrite app_nil_r. reflexivity.
  - rewrite sapp_assoc, parse_escape_char, IH. simpl.
    now rewrite <- app_assoc.
Qed.

(** A string literal is read back. *)
Lemma parse_quoted (s rest : string) :
  exists t, QuoteJSONString s ++ rest = String quote t /\
            parse_chars t [] = Some (s, rest).
Proof.
  exists (escape s ++ String quote rest). split.
  - unfold QuoteJSONString, char. simpl. now rewrite sapp_assoc.
  - rewrite parse_escape. simpl. now rewrite string_of_list_ascii_of_string.
Qed.

Lemma read_digits_delimited rest acc cnt :
  delimited rest = true -> read_digits rest acc cnt = (acc, cnt, rest).
Proof.
  destruct rest as [|c r]; simpl; [reflexivity|].
  destruct (digit_val c); [discriminate|reflexivity].
Qed.

Lemma read_digits_step c k r acc cnt :
  digit_val c = Some k ->
  read_digits (String c r) acc cnt = read_digits r (10 * acc + k) (cnt + 1).
Proof. intros H. simpl. now rewrite H. Qed.

Lemma read_digits_uint d : forall rest acc cnt,
  delimited rest = true ->
  exists cnt',
    read_digits (NilEmpty.string_of_uint d ++ rest) (Z.pos acc) cnt
    = (Z.pos (Pos.of_uint_acc d acc), cnt', rest).
Proof.
  induction d; intros rest acc cnt Hr; simpl NilEmpty.string_of_uint;
    [exists cnt; now apply read_digits_delimited|..];
    cbn [append];
    match goal with
    | |- context [read_digits (String ?c _) _ _] =>
        let k := eval vm_compute in (digit_val c) in
        match k with
        | Some ?kv => rewrite (read_digits_step c kv) by reflexivity
        end
    end;
    cbn [Pos.of_uint_acc];
    match goal with
    | |- context [read_digits _ ?z _] =>
        match goal with
        | |- context [Pos.of_uint_acc d ?a] =>
            replace z with (Z.pos a) by lia; apply IHd; assumption
        end
    end.
Qed.

(** The decimal digits of a positive number start with a digit that is not
    zero. *)
Lemma to_uint_head p :
  exists c k t,
    NilEmpty.string_of_uint (Pos.to_uint p) = String c t /\
    digit_val c = Some (Z.pos k) /\
    Ascii.eqb c "-" = false /\
    forall rest cnt, delimited rest = true ->
      exists cnt', read_digits (t ++ rest) (Z.pos k) cnt = (Z.pos p, cnt', rest).
Proof.
  pose proof (DecimalPos.Unsigned.of_to p) as Hof.
  pose proof (DecimalPos.Unsigned.to_uint_nonzero p) as Hnz.
  pose proof (DecimalPos.Unsigned.to_of (Pos.to_uint p)) as Hto.
  rewrite Hof in Hto. simpl N.to_uint in Hto.
  destruct (Pos.to_uint p) as [|d|d|d|d|d|d|d|d|d|d] eqn:E.
  - discriminate Hof.
  - exfalso. unfold Decimal.unorm in Hto.
    destruct (Decimal.nzhead (Decimal.D0 d)) eqn:En;
      try (symmetry in Hto; exact (DecimalFacts.nzhead_nonzero _ _ (eq_trans En Hto))).
    apply Hnz. exact Hto.
  - exists "1"%char, 1%positive, (NilEmpty.string_of_uint d).
    repeat split. intros rest cnt Hr.
    destruct (read_digits_uint d rest 1 cnt Hr) as [cnt' Hc]. exists cnt'.
    rewrite Hc. simpl in Hof. now injection Hof as ->.
  - exists "2"%char, 2%positive, (NilEmpty.string_of_uint d).
    repeat split. intros rest cnt Hr.
    destruct (read_digits_uint d rest 2 cnt Hr) as [cnt' Hc]. exists cnt'.
    rewrite Hc. simpl in Hof. now injection Hof as ->.
  - exists "3"%char, 3%positive, (NilEmpty.string_of_uint d).
    repeat split. intros rest cnt Hr.
    destruct (read_digits_uint d rest 3 cnt Hr) as [cnt' Hc]. exists cnt'.
    rewrite Hc. simpl in Hof. now injection Hof as ->.
  - exists "4"%char, 4%positive, (NilEmpty.string_of_uint d).
    repeat split. intros rest cnt Hr.
    destruct (read_digits_uint d rest 4 cnt Hr) as [cnt' Hc]. exists cnt'.
    rewrite Hc. simpl in Hof. now injection Hof as ->.
  - exists "5"%char, 5%positive, (NilEmpty.string_of_uint d).
    repeat split. intros rest cnt Hr.
    destruct (read_digits_uint d rest 5 cnt Hr) as [cnt' Hc]. exists cnt'.
    rewrite Hc. simpl in Hof. now injection Hof as ->.
  - exists "6"%char, 6%positive, (NilEmpty.string_of_uint d).
    repeat split. intros rest cnt Hr.
    destruct (read_digits_uint d rest 6 cnt Hr) as [cnt' Hc]. exists cnt'.
    rewrite Hc. simpl in Hof. now injection Hof as ->.
  - exists "7"%char, 7%positive, (NilEmpty.string_of_uint d).
    repeat split. intros rest cnt Hr.
    destruct (read_digits_uint d rest 7 cnt Hr) as [cnt' Hc]. exists cnt'.
    rewrite Hc. simpl in Hof. now injection Hof as ->.
  - exists "8"%char, 8%positive, (NilEmpty.string_of_uint d).
    repeat split. intros rest cnt Hr.
    destruct (read_digits_uint d rest 8 cnt Hr) as [cnt' Hc]. exists cnt'.
    rewrite Hc. simpl in Hof. now injection Hof as ->.
  - exists "9"%char, 9%positive, (NilEmpty.string_of_uint d).
    repeat split. intros rest cnt Hr.
    destruct (read_digits_uint d rest 9 cnt Hr) as [cnt' Hc]. exists cnt'.
    rewrite Hc. simpl in Hof. now injection Hof as ->.
Qed.

Lemma digits_positive p :
  digits (Z.pos p) = NilEmpty.string_of_uint (Pos.to_uint p).
Proof.
  unfold digits. simpl Z.to_N. simpl N.to_uint.
  pose proof (DecimalPos.Unsigned.to_uint_nonnil p) as H.
  unfold NilZero.string_of_uint. destruct (Pos.to_uint p); [contradiction|..];
    reflexivity.
Qed.

Lemma drop_zeros_length l : (length (drop_zeros l) <= length l)%nat.
Proof.
  induction l as [|c r IH]; simpl; [lia|].
  destruct (is_zero_char c); simpl; lia.
Qed.

Lemma repeat_snoc {A} (x : A) n : (repeat x n ++ [x])%list = x :: repeat x n.
Proof. induction n as [|n IH]; simpl; [reflexivity|now rewrite IH]. Qed.

(** Taking the zeros off the end of the digits and writing them again gives
    the digits. *)
Lemma drop_zeros_restore l :
  (rev (drop_zeros l)
     ++ repeat "0"%char (length l - length (drop_zeros l)))%list = rev l.
Proof.
  induction l as [|c r IH]; [reflexivity|]. cbn [drop_zeros rev length].
  destruct (is_zero_char c) eqn:E.
  - unfold is_zero_char in E. apply Ascii.eqb_eq in E. subst c.
    pose proof (drop_zeros_length r).
    replace (S (length r) - length (drop_zeros r))%nat
      with (S (length r - length (drop_zeros r))) by lia.
    rewrite <- IH, <- app_assoc. f_equal. cbn [repeat]. now rewrite repeat_snoc.
  - cbn [rev length]. rewrite Nat.sub_diag. cbn [repeat]. now rewrite app_nil_r.
Qed.

Lemma string_of_list_ascii_app l1 l2 :
  string_of_list_ascii (l1 ++ l2)%list
  = string_of_list_ascii l1 ++ string_of_list_ascii l2.
Proof. induction l1 as [|c l1 IH]; simpl; [reflexivity|now rewrite IH]. Qed.

Lemma length_list_ascii s : length (list_ascii_of_string s) = String.length s.
Proof. induction s as [|c s IH]; simpl; [reflexivity|now rewrite IH]. Qed.

(** An integer of at most 21 digits is written as its sign and digits. *)
Lemma Number_toString_integer m :
  m <> 0 ->
  Nat.leb (String.length (digits (Z.abs m))) 21 = true ->
  Number_toString m 0 = (if (m <? 0)%Z then "-" else "") ++ digits (Z.abs m).
Proof.
  intros Hm Hl. unfold Number_toString.
  destruct (Z.eqb_spec m 0); [contradiction|]. f_equal.
  set (raw := list_ascii_of_string (digits (Z.abs m))).
  set (sig := rev (drop_zeros (rev raw))).
  assert (Hraw : length raw = String.length (digits (Z.abs m)))
    by apply length_list_ascii.
  assert (Hsig : (length sig <= length raw)%nat).
  { unfold sig. rewrite length_rev, <- (length_rev raw). apply drop_zeros_length. }
  apply Nat.leb_le in Hl.
  assert (C : (Z.of_nat (length sig) <=? Z.of_nat (length raw) + 0)%Z
              && (Z.of_nat (length raw) + 0 <=? 21)%Z = true).
  { apply andb_true_iff. split; apply Z.leb_le; lia. }
  rewrite C. unfold zeros. rewrite <- string_of_list_ascii_app.
  replace (Z.to_nat (Z.of_nat (length raw) + 0 - Z.of_nat (length sig)))
    with (length (rev raw) - length (drop_zeros (rev raw)))%nat.
  - unfold sig. rewrite drop_zeros_restore, rev_involutive.
    unfold raw. apply string_of_list_ascii_of_string.
  - unfold sig. rewrite !length_rev. lia.
Qed.

Lemma read_fraction_delimited rest ip :
  delimited rest = true -> read_fraction rest ip = Some (ip, 0, rest).
Proof.
  destruct rest as [|c r]; simpl; [reflexivity|].
  destruct (digit_val c); [discriminate|].
  destruct (Ascii.eqb c "."); [discriminate|reflexivity].
Qed.

Lemma read_exponent_delimited rest m :
  delimited rest = true -> read_exponent rest m 0 = Some (JNum m 0, rest).
Proof.
  destruct rest as [|c r]; simpl; [reflexivity|].
  destruct (digit_val c); [discriminate|].
  destruct (Ascii.eqb c "."); [discriminate|]. simpl.
  destruct (Ascii.eqb c "e" || Ascii.eqb c "E"); [discriminate|reflexivity].
Qed.

Lemma parse_number_positive p (neg : bool) rest :
  delimited rest = true ->
  exists c t,
    digits (Z.pos p) = String c t /\
    (exists k, digit_val c = Some (Z.pos k)) /\
    parse_number
      ((if neg then "-" else "") ++ digits (Z.pos p) ++ rest)
    = Some (JNum (if neg then Z.neg p else Z.pos p) 0, rest).
Proof.
  intros Hr. rewrite digits_positive.
  destruct (to_uint_head p) as (c & k & t & Et & Hc & Hminus & Hread).
  exists c, t. split; [exact Et|]. split; [eauto|].
  destruct (Hread rest 1 Hr) as [cnt' Hd].
  assert (Hbody : forall negb : bool,
            match String c (t ++ rest) with
            | String c0 r =>
                match digit_val c0 with
                | None => None
                | Some d =>
                    let '(ip, _, s2) :=
                      if (d =? 0)%Z then (0, 1, r)
                      else read_digits (String c (t ++ rest)) 0 0 in
                    match read_fraction s2 ip with
                    | None => None
                    | Some (mant, fc, s3) =>
                        read_exponent s3 (if negb then - mant else mant) fc
                    end
                end
            | EmptyString => None
            end = Some (JNum (if negb then Z.neg p else Z.pos p) 0, rest)).
  { intros b. rewrite Hc. change (Z.pos k =? 0)%Z with false. cbv iota.
    rewrite (read_digits_step c (Z.pos k)) by exact Hc.
    change (10 * 0 + Z.pos k) with (Z.pos k). change (0 + 1) with 1.
    rewrite Hd. cbv iota beta.
    rewrite (read_fraction_delimited rest _ Hr). cbv iota beta.
    rewrite (read_exponent_delimited rest _ Hr). destruct b; reflexivity. }
  rewrite Et. destruct neg.
  - unfold parse_number. cbn [append].
    change (Ascii.eqb "-" "-") with true. cbv iota. exact (Hbody true).
  - unfold parse_number. cbn [append]. rewrite Hminus. exact (Hbody false).
Qed.

(** The text of a number that [plain] admits is read back. *)
Lemma parse_number_plain m rest :
  Nat.leb (String.length (digits (Z.abs m))) 21 = true ->
  delimited rest = true ->
  exists c t,
    Number_toString m 0 = String c t /\
    (c = "-"%char \/ exists k, digit_val c = Some k) /\
    parse_number (Number_toString m 0 ++ rest) = Some (JNum m 0, rest).
Proof.
  intros Hl Hr. destruct m as [|p|p].
  - exists "0"%char, "". split; [reflexivity|]. split; [right; now exists 0|].
    change (Number_toString 0 0 ++ rest) with (String "0" rest).
    unfold parse_number. change (Ascii.eqb "0" "-") with false. cbv iota.
    change (digit_val "0") with (Some 0). cbv iota.
    change (0 =? 0)%Z with true. cbv iota beta.
    rewrite (read_fraction_delimited rest _ Hr). cbv iota beta.
    now rewrite (read_exponent_delimited rest _ Hr).
  - rewrite (Number_toString_integer (Z.pos p)) by (discriminate || exact Hl).
    change (Z.pos p <? 0)%Z with false. cbv iota.
    destruct (parse_number_positive p false rest Hr) as (c & t & Et & (k & Hk) & Hp).
    exists c, t. split; [exact Et|]. split; [right; eauto|]. exact Hp.
  - rewrite (Number_toString_integer (Z.neg p)) by (discriminate || exact Hl).
    change (Z.neg p <? 0)%Z with true. cbv iota.
    destruct (parse_number_positive p true rest Hr) as (c & t & Et & _ & Hp).
    exists "-"%char, (digits (Z.pos p)). split; [reflexivity|]. split; [now left|].
    rewrite sapp_assoc. exact Hp.
Qed.

Lemma number_head c :
  c = "-"%char \/ (exists k, digit_val c = Some k) ->
  is_ws c = false /\
  Ascii.eqb c "{" = false /\ Ascii.eqb c "[" = false /\ Ascii.eqb c quote = false /\
  Ascii.eqb c "t" = false /\ Ascii.eqb c "f" = false /\ Ascii.eqb c "n" = false /\
  opener c = true.
Proof.
  intros [->|[k Hk]]; [repeat split|].
  destruct c as [[] [] [] [] [] [] [] []]; vm_compute in Hk; try discriminate Hk;
    repeat split.
Qed.

Lemma stringify_opener j :
  plain j = true ->
  exists c t, JSON_stringify j = String c t /\ opener c = true.
Proof.
  destruct j as [|[]|m e|s|xs|kvs]; intros H;
    try (eexists; eexists; (split; [reflexivity|reflexivity])).
  simpl in H. apply andb_true_iff in H as [He Hl].
  apply Z.eqb_eq in He. subst e.
  destruct (parse_number_plain m "" Hl eq_refl) as (c & t & Et & Hc & _).
  exists c, t. split; [exact Et|]. apply number_head. exact Hc.
Qed.

Lemma concat_cons2 (sep x y : string) (l : list string) :
  String.concat sep (x :: y :: l) = x ++ sep ++ String.concat sep (y :: l).
Proof. reflexivity. Qed.

Lemma skip_ws_head c t : is_ws c = false -> skip_ws (String c t) = String c t.
Proof. intros H. simpl. now rewrite H. Qed.

Lemma parse_elements_S f s acc :
  parse_elements (S f) s acc
  = match parse_value f s with
    | None => None
    | Some (v, r) =>
        match skip_ws r with
        | EmptyString => None
        | String c r' =>
            if Ascii.eqb c "," then parse_elements f r' (v :: acc)
            else if Ascii.eqb c "]" then Some (JArr (rev (v :: acc)), r')
            else None
        end
    end.
Proof. reflexivity. Qed.

Lemma parse_members_S f s acc :
  parse_members (S f) s acc
  = match starts_with quote (skip_ws s) with
    | None => None
    | Some r =>
        match parse_chars r [] with
        | None => None
        | Some (k, r1) =>
            match starts_with ":" (skip_ws r1) with
            | None => None
            | Some r2 =>
                match parse_value f r2 with
                | None => None
                | Some (v, r3) =>
                    match skip_ws r3 with
                    | EmptyString => None
                    | String c r4 =>
                        if Ascii.eqb c "," then parse_members f r4 (set_prop acc k v)
                        else if Ascii.eqb c "}" then Some (JObj (set_prop acc k v), r4)
                        else None
                    end
                end
            end
        end
    end.
Proof. reflexivity. Qed.

Lemma parse_value_S f s :
  parse_value (S f) s
  = match skip_ws s with
    | EmptyString => None
    | String c r =>
        if Ascii.eqb c "{" then
          match starts_with "}" (skip_ws r) with
          | Some r' => Some (JObj [], r')
          | None => parse_members f r []
          end
        else if Ascii.eqb c "[" then
          match starts_with "]" (skip_ws r) with
          | Some r' => Some (JArr [], r')
          | None => parse_elements f r []
          end
        else if Ascii.eqb c quote then
          match parse_chars r [] with
          | Some (str, r') => Some (JStr str, r')
          | None => None
          end
        else if Ascii.eqb c "t" then literal "rue" (JBool true) r
        else if Ascii.eqb c "f" then literal "alse" (JBool false) r
        else if Ascii.eqb c "n" then literal "ull" JNull r
        else parse_number (String c r)
    end.
Proof. reflexivity. Qed.

Lemma opener_not_closing c t :
  opener c = true ->
  skip_ws (String c t) = String c t /\
  starts_with "]" (String c t) = None /\
  starts_with "}" (String c t) = None.
Proof.
  unfold opener. intros H.
  apply andb_true_iff in H as [H H3]. apply andb_true_iff in H as [H1 H2].
  apply negb_true_iff in H1, H2, H3.
  split; [now apply skip_ws_head|]. unfold starts_with. now rewrite H2, H3.
Qed.

Lemma parse_elements_loop xs :
  xs <> [] ->
  Forall reads_back xs ->
  forall acc rest, exists f0, forall f, (f0 <= f)%nat ->
    parse_elements f
      (String.concat "," (map JSON_stringify xs) ++ String "]" rest) acc
    = Some (JArr (rev acc ++ xs)%list, rest).
Proof.
  induction xs as [|x xs IH]; [contradiction|]. intros _ HF acc rest.
  inversion HF as [|? ? Hx Hxs]; subst.
  destruct xs as [|y ys].
  - destruct (Hx (String "]" rest) eq_refl) as [f0 Hf0].
    exists (S f0). intros [|f] Hf; [lia|].
    rewrite parse_elements_S. simpl String.concat.
    rewrite Hf0 by lia. reflexivity.
  - destruct (IH ltac:(discriminate) Hxs (x :: acc) rest) as [f1 Hf1].
    destruct (Hx (String "," (String.concat "," (map JSON_stringify (y :: ys))
                                ++ String "]" rest)) eq_refl) as [f0 Hf0].
    exists (S (Nat.max f0 f1)). intros [|f] Hf; [lia|].
    rewrite parse_elements_S.
    change (map JSON_stringify (x :: y :: ys))
      with (JSON_stringify x :: JSON_stringify y :: map JSON_stringify ys).
    rewrite concat_cons2, !sapp_assoc.
    change ("," ++ String.concat "," (JSON_stringify y :: map JSON_stringify ys)
              ++ String "]" rest)
      with (String "," (String.concat "," (map JSON_stringify (y :: ys))
                          ++ String "]" rest)).
    rewrite Hf0 by lia.
    rewrite (skip_ws_head "," _ eq_refl).
    change (Ascii.eqb "," ",") with true. cbv iota.
    rewrite Hf1 by lia. simpl. now rewrite <- app_assoc.
Qed.

Lemma set_prop_fresh acc k v :
  forallb (fun a => negb (String.eqb a k)) (map fst acc) = true ->
  set_prop acc k v = (acc ++ [(k, v)])%list.
Proof.
  induction acc as [|[k' v'] acc IH]; simpl; [reflexivity|].
  intros H. apply andb_true_iff in H as [Hk Hr].
  apply negb_true_iff in Hk. rewrite Hk, IH by assumption. reflexivity.
Qed.

Lemma distinct_app_fresh l1 k l2 :
  distinct (l1 ++ k :: l2)%list = true ->
  forallb (fun a => negb (String.eqb a k)) l1 = true.
Proof.
  induction l1 as [|a l1 IH]; simpl; [reflexivity|].
  intros H. apply andb_true_iff in H as [Ha Hr].
  rewrite IH by assumption. rewrite andb_true_r.
  apply negb_true_iff in Ha. rewrite existsb_app in Ha.
  apply orb_false_iff in Ha as [_ Ha]. simpl in Ha.
  apply orb_false_iff in Ha as [Ha _]. now rewrite Ha.
Qed.

Lemma member_quoted k v rest :
  exists t,
    member (k, v) ++ rest = String quote t /\
    parse_chars t [] = Some (k, String ":" (JSON_stringify v ++ rest)).
Proof.
  destruct (parse_quoted k (String ":" (JSON_stringify v ++ rest))) as (t & Et & Ht).
  exists t. split; [|exact Ht].
  rewrite <- Et. unfold member. now rewrite !sapp_assoc.
Qed.

Lemma parse_members_loop kvs :
  kvs <> [] ->
  Forall (fun kv => reads_back (snd kv)) kvs ->
  forall acc rest,
    distinct (map fst (acc ++ kvs)%list) = true ->
    exists f0, forall f, (f0 <= f)%nat ->
      parse_members f (String.concat "," (map member kvs) ++ String "}" rest) acc
      = Some (JObj (acc ++ kvs)%list, rest).
Proof.
  induction kvs as [|[k v] kvs IH]; [contradiction|]. intros _ HF acc rest Hd.
  inversion HF as [|? ? Hv Hkvs]; subst. simpl in Hv.
  assert (Hfresh : set_prop acc k v = (acc ++ [(k, v)])%list).
  { apply set_prop_fresh. rewrite map_app in Hd. simpl in Hd.
    exact (distinct_app_fresh _ _ _ Hd). }
  destruct kvs as [|kv' kvs'].
  - destruct (Hv (String "}" rest) eq_refl) as [f0 Hf0].
    destruct (member_quoted k v (String "}" rest)) as (t & Et & Ht).
    exists (S f0). intros [|f] Hf; [lia|].
    rewrite parse_members_S.
    change (String.concat "," (map member [(k, v)])) with (member (k, v)).
    rewrite Et.
    rewrite (skip_ws_head quote _ eq_refl).
    change (starts_with quote (String quote t)) with (Some t).
    cbv iota. rewrite Ht. cbv iota beta.
    rewrite (skip_ws_head ":" _ eq_refl).
    change (starts_with ":" (String ":" ?x)) with (Some x).
    cbv iota. rewrite Hf0 by lia. cbv iota beta.
    rewrite (skip_ws_head "}" _ eq_refl).
    change (Ascii.eqb "}" ",") with false. change (Ascii.eqb "}" "}") with true.
    cbv iota. now rewrite Hfresh.
  - assert (Hd' : distinct (map fst ((acc ++ [(k, v)]) ++ kv' :: kvs')%list) = true).
    { now rewrite <- app_assoc. }
    destruct (IH ltac:(discriminate) Hkvs (acc ++ [(k, v)])%list rest Hd') as [f1 Hf1].
    destruct (Hv (String "," (String.concat "," (map member (kv' :: kvs'))
                                ++ String "}" rest)) eq_refl) as [f0 Hf0].
    destruct (member_quoted k v
                (String "," (String.concat "," (map member (kv' :: kvs'))
                               ++ String "}" rest))) as (t & Et & Ht).
    exists (S (Nat.max f0 f1)). intros [|f] Hf; [lia|].
    rewrite parse_members_S.
    change (map member ((k, v) :: kv' :: kvs'))
      with (member (k, v) :: member kv' :: map member kvs').
    rewrite concat_cons2, !sapp_assoc.
    change ("," ++ String.concat "," (member kv' :: map member kvs') ++ String "}" rest)
      with (String "," (String.concat "," (map member (kv' :: kvs'))
                          ++ String "}" rest)).
    rewrite Et.
    rewrite (skip_ws_head quote _ eq_refl).
    change (starts_with quote (String quote t)) with (Some t).
    cbv iota. rewrite Ht. cbv iota beta.
    rewrite (skip_ws_head ":" _ eq_refl).
    change (starts_with ":" (String ":" ?x)) with (Some x).
    cbv iota. rewrite Hf0 by lia. cbv iota beta.
    rewrite (skip_ws_head "," _ eq_refl).
    change (Ascii.eqb "," ",") with true.
    cbv iota. rewrite Hfresh, Hf1 by lia. now rewrite <- app_assoc.
Qed.

Theorem stringify_reads_back j : plain j = true -> reads_back j.
Proof.
  induction j as [|b|m e|s|xs IH|kvs IH] using json_induction; intros Hp rest Hr.
  - exists 1%nat. intros [|f] Hf; [lia|]. reflexivity.
  - exists 1%nat. intros [|f] Hf; [lia|]. destruct b; reflexivity.
  - simpl in Hp. apply andb_true_iff in Hp as [He Hl].
    apply Z.eqb_eq in He. subst e.
    destruct (parse_number_plain m rest Hl Hr) as (c & t & Et & Hc & Hp).
    destruct (number_head c Hc) as (Hw & H1 & H2 & H3 & H4 & H5 & H6 & _).
    exists 1%nat. intros [|f] Hf; [lia|].
    change (JSON_stringify (JNum m 0)) with (Number_toString m 0).
    rewrite Et in Hp |- *. cbn [append] in Hp |- *.
    rewrite parse_value_S, (skip_ws_head c _ Hw), H1, H2, H3, H4, H5, H6.
    exact Hp.
  - destruct (parse_quoted s rest) as (t & Et & Ht).
    exists 1%nat. intros [|f] Hf; [lia|].
    change (JSON_stringify (JStr s)) with (QuoteJSONString s).
    rewrite Et, parse_value_S, (skip_ws_head quote _ eq_refl).
    change (Ascii.eqb quote "{") with false. change (Ascii.eqb quote "[") with false.
    change (Ascii.eqb quote quote) with true. cbv iota. now rewrite Ht.
  - simpl in Hp.
    assert (HF : Forall reads_back xs).
    { rewrite forallb_forall in Hp. rewrite Forall_forall in IH |- *.
      intros x Hx. apply IH; auto. }
    destruct xs as [|x xs'].
    { exists 1%nat. intros [|f] Hf; [lia|]. reflexivity. }
    destruct (parse_elements_loop (x :: xs') ltac:(discriminate) HF [] rest) as [f0 Hf0].
    exists (S f0). intros [|f] Hf; [lia|].
    assert (Es : JSON_stringify (JArr (x :: xs')) ++ rest
                 = String "[" (String.concat "," (map JSON_stringify (x :: xs'))
                                 ++ String "]" rest)).
    { change (JSON_stringify (JArr (x :: xs')))
        with ("[" ++ String.concat "," (map JSON_stringify (x :: xs')) ++ "]").
      now rewrite !sapp_assoc. }
    rewrite Es, parse_value_S, (skip_ws_head "[" _ eq_refl).
    change (Ascii.eqb "[" "{") with false. change (Ascii.eqb "[" "[") with true.
    cbv iota.
    assert (Eh : exists c t,
               String.concat "," (map JSON_stringify (x :: xs')) ++ String "]" rest
               = String c t /\ opener c = true).
    { apply andb_true_iff in Hp as [Hx _].
      destruct (stringify_opener x Hx) as (c & t & Ec & Hc).
      destruct xs' as [|y ys].
      - exists c, (t ++ String "]" rest). simpl String.concat. now rewrite Ec.
      - exists c, (t ++ "," ++ String.concat "," (map JSON_stringify (y :: ys))
                     ++ String "]" rest).
        change (map JSON_stringify (x :: y :: ys))
          with (JSON_stringify x :: JSON_stringify y :: map JSON_stringify ys).
        rewrite concat_cons2, Ec, !sapp_assoc. now split. }
    destruct Eh as (c & t & Ec & Hc).
    destruct (opener_not_closing c t Hc) as (Hs & Ha & _).
    pose proof (Hf0 f ltac:(lia)) as Hrun. rewrite Ec in Hrun |- *.
    rewrite Hs, Ha. exact Hrun.
  - simpl in Hp. apply andb_true_iff in Hp as [Hd Hp].
    assert (HF : Forall (fun kv => reads_back (snd kv)) kvs).
    { rewrite forallb_forall in Hp. rewrite Forall_forall in IH |- *.
      intros [k v] Hkv. apply IH; [exact Hkv|]. exact (Hp (k, v) Hkv). }
    destruct kvs as [|[k v] kvs'].
    { exists 1%nat. intros [|f] Hf; [lia|]. reflexivity. }
    destruct (parse_members_loop ((k, v) :: kvs') ltac:(discriminate) HF [] rest Hd)
      as [f0 Hf0].
    exists (S f0). intros [|f] Hf; [lia|].
    assert (Es : JSON_stringify (JObj ((k, v) :: kvs')) ++ rest
                 = String "{" (String.concat "," (map member ((k, v) :: kvs'))
                                 ++ String "}" rest)).
    { change (JSON_stringify (JObj ((k, v) :: kvs')))
        with ("{" ++ String.concat "," (map member ((k, v) :: kvs')) ++ "}").
      now rewrite !sapp_assoc. }
    rewrite Es, parse_value_S, (skip_ws_head "{" _ eq_refl).
    change (Ascii.eqb "{" "{") with true. cbv iota.
    assert (Eh : exists t,
               String.concat "," (map member ((k, v) :: kvs')) ++ String "}" rest
               = String quote t).
    { destruct kvs' as [|kv' kvs''].
      - destruct (member_quoted k v (String "}" rest)) as (t & Et & _).
        exists t. exact Et.
      - destruct (member_quoted k v
                    ("," ++ String.concat "," (map member (kv' :: kvs''))
                       ++ String "}" rest)) as (t & Et & _).
        exists t.
        change (map member ((k, v) :: kv' :: kvs''))
          with (member (k, v) :: member kv' :: map member kvs'').
        now rewrite concat_cons2, !sapp_assoc. }
    destruct Eh as (t & Et).
    destruct (opener_not_closing quote t eq_refl) as (Hs & _ & Ha).
    pose proof (Hf0 f ltac:(lia)) as Hrun. rewrite Et in Hrun |- *.
    rewrite Hs, Ha. exact Hrun.
Qed.

(** [JSON.parse] reads back what [JSON.stringify] wrote. *)
Lemma JSON_parse_stringify j : plain j = true -> JSON_parse (JSON_stringify j) = Ok j.
Proof.
  intros Hp. destruct (stringify_reads_back j Hp "" eq_refl) as [f0 Hf0].
  rewrite sapp_nil_r in Hf0. unfold JSON_parse.
  rewrite <- (JSON_parse_fuel (JSON_stringify j)
                (Nat.max f0 (2 * String.length (JSON_stringify j) + 2))) by lia.
  rewrite Hf0 by lia. reflexivity.
Qed.

Local Open Scope list_scope.

(** ** Serialized content *)

Lemma ContentBlock_json_plain b : plain (ContentBlock_json b) = true.
Proof. destruct b; reflexivity. Qed.

Lemma content_json_plain blocks : plain (JArr (map ContentBlock_json blocks)) = true.
Proof.
  simpl. induction blocks as [|b l IH]; simpl; [reflexivity|].
  now rewrite ContentBlock_json_plain, IH.
Qed.

Lemma ContentBlock_json_inj a b : ContentBlock_json a = ContentBlock_json b -> a = b.
Proof. destruct a, b; simpl; intros H; try discriminate H; now inversion H. Qed.

Lemma map_ContentBlock_json_inj l1 l2 :
  map ContentBlock_json l1 = map ContentBlock_json l2 -> l1 = l2.
Proof.
  revert l2. induction l1 as [|a l1 IH]; intros [|b l2]; simpl; intros H;
    try discriminate H; [reflexivity|].
  injection H as Ha Hl. f_equal; [now apply ContentBlock_json_inj|now apply IH].
Qed.

(** X11: the text a message without a block to send falls back to is JSON
    that [JSON.parse] reads back as the content of the message, block by
    block; so two such messages that are sent as the same text have the same
    blocks. *)
Theorem fallback_reads_back (msg : Message) (blocks : list ContentBlock) :
  msg_content msg = ContentBlocks blocks ->
  filter supported blocks = [] ->
  exists text,
    param_content (formatMessage msg) = ParamString text /\
    JSON_parse text = Ok (JArr (map ContentBlock_json blocks)) /\
    (forall msg' blocks',
        msg_content msg' = ContentBlocks blocks' ->
        param_content (formatMessage msg') = ParamString text ->
        blocks' = blocks).
Proof.
  intros Hc Hf.
  exists (JSON_stringify (JArr (map ContentBlock_json blocks))).
  split; [|split].
  - unfold formatMessage. rewrite Hc, mapContent_filter, Hf. reflexivity.
  - apply JSON_parse_stringify, content_json_plain.
  - intros msg' blocks' Hc' Hp. unfold formatMessage in Hp. rewrite Hc' in Hp.
    cbn [param_content] in Hp.
    destruct (0 <? length (mapContent blocks'))%nat; [discriminate Hp|].
    assert (Hs : JSON_stringify (JArr (map ContentBlock_json blocks'))
                 = JSON_stringify (JArr (map ContentBlock_json blocks)))
      by congruence.
    assert (E : Ok (JArr (map ContentBlock_json blocks'))
                = Ok (JArr (map ContentBlock_json blocks))).
    { rewrite <- (JSON_parse_stringify _ (content_json_plain blocks')), Hs.
      apply JSON_parse_stringify, content_json_plain. }
    injection E as E. now apply map_ContentBlock_json_inj.
Qed.

Lemma fallback_reads_back_witness :
  filter supported imageBlocks = [] /\
  exists text,
    param_content (formatMessage imageOnly) = ParamString text /\
    JSON_parse text = Ok (JArr (map ContentBlock_json imageBlocks)).
Proof.
  split; [reflexivity|].
  destruct (fallback_reads_back imageOnly imageBlocks eq_refl eq_refl)
    as (text & Ht & Hp & _).
  exists text. split; [exact Ht|exact Hp].
Defined.

(** X12: a tool whose schema is given as the JSON text of an object or an
    array is mapped as the tool that gives that value itself, provided the
    value has no key twice in an object and no number other than an integer
    of at most 21 digits. *)
Theorem schema_text_as_object (toolName toolDescription : string) (v : json) :
  is_object v = true ->
  plain v = true ->
  formatTool {| tool_name := toolName;
                tool_description := toolDescription;
                tool_input_schema := Some (JStr (JSON_stringify v)) |}
  = formatTool {| tool_name := toolName;
                  tool_description := toolDescription;
                  tool_input_schema := Some v |}.
Proof.
  intros Ho Hp. unfold formatTool, schemaObject. simpl.
  rewrite (JSON_parse_stringify v Hp). simpl. rewrite Ho.
  destruct v as [| | | |xs|kvs]; try discriminate Ho; simpl; [reflexivity|].
  destruct (existsb _ kvs); reflexivity.
Qed.

Lemma schema_text_as_object_witness :
  is_object searchSchema = true /\
  plain searchSchema = true /\
  formatTool searchToolText = formatTool searchTool.
Proof.
  split; [reflexivity|]. split; [reflexivity|].
  exact (schema_text_as_object "search" "Search the web" searchSchema eq_refl eq_refl).
Defined.

(** X13: every tool_use block of the vendor's response is in the content of
    the response under its name, and when its input has no key twice in an
    object and no number other than an integer of at most 21 digits, the
    input of the block is a text that [JSON.parse] reads back as the
    vendor's input. *)
Theorem tool_use_input_reads_back vendor (this : AnthropicAdapter)
    (options : AIRequestOptions) (log log' : Log) (r : AIResponse) :
  generateResponse vendor this options log = (Ok r, log') ->
  exists response,
    vendor (client this) (createParams this options) = Ok response /\
    forall id name j,
      In (AToolUse id name j) (vendor_content response) ->
      exists input,
        In (ToolUseBlock name input) (content r) /\
        (plain j = true -> JSON_parse input = Ok j).
Proof.
  intros H. apply generateResponse_inv in H as (response & Hv & Hc & _).
  exists response. split; [exact Hv|].
  intros id name j Hin. exists (JSON_stringify j). split.
  - rewrite Hc, mapResponseContent_flat_map. apply in_flat_map.
    exists (AToolUse id name j). split; [exact Hin|]. left. reflexivity.
  - apply JSON_parse_stringify.
Qed.

Lemma tool_use_input_reads_back_witness :
  generateResponse (replying toolReply) opusAdapter (basicOptions []) []
  = (Ok toolResponse, [createParams opusAdapter (basicOptions [])]) /\
  exists input,
    In (ToolUseBlock "get_weather" input) (content toolResponse) /\
    JSON_parse input = Ok (JObj [("city", JStr "Paris")]).
Proof.
  assert (run :
    generateResponse (replying toolReply) opusAdapter (basicOptions []) []
    = (Ok toolResponse, [createParams opusAdapter (basicOptions [])]))
    by reflexivity.
  split; [exact run|].
  destruct (tool_use_input_reads_back _ _ _ _ _ _ run) as (response & Hv & Hall).
  injection Hv as <-.
  destruct (Hall "toolu_01" "get_weather" (JObj [("city", JStr "Paris")]))
    as (input & Hin & Hp).
  - right. right. left. reflexivity.
  - exists input. split; [exact Hin|]. exact (Hp eq_refl).
Defined.
